(** * Risk-constrained order execution of the Day-Trader sandbox

    A shallow embedding of [src/core/TradingEngine.js] and
    [src/core/RiskManager.js]: the portfolio ledger, the three risk limits
    and the [buy] path that applies them.

    JavaScript numbers are IEEE 754 binary64 values with round-to-nearest-even
    arithmetic, which is exactly what Rocq's primitive [float] provides, so
    every number of the program is a [float] and every [+ - * /] and
    comparison of the source is the primitive operation of the same name.
    The [async] methods are awaited one after the other by a single caller;
    they are modelled as state-passing functions over the engine object and
    the outside world (price source and clock). *)

From Stdlib Require Import Floats ZArith NArith List String Ascii Bool Lia Setoid.
Import ListNotations.

#[local] Set Warnings "-inexact-float".
#[local] Open Scope float_scope.

(** ** JavaScript values stored in the [positions] object *)

Module JS.

(** A property of [portfolio.positions] holds a number on every path that
    starts from a numeric quantity.  The one other kind of value the
    program can meet there comes from the prototype chain: the object is a
    plain [{}], so [positions["toString"]] is an inherited function.
    [JJunk] stands for such a function or object and for the string that
    [+] builds from it; all of them are truthy and all of them convert to
    NaN under [ToNumber]. *)
Inductive value : Type :=
| JNum (f : float)
| JJunk.

Definition toNumber (v : value) : float :=
  match v with
  | JNum f => f
  | JJunk => nan
  end.

(** [ToBoolean] on a number: [+0], [-0] and [NaN] are falsy. *)
Definition truthy (f : float) : bool :=
  negb (is_zero f || is_nan f).

(** Own properties in creation order. *)
Definition object : Type := list (string * value).

(** Names every plain object inherits from [Object.prototype]. *)
Definition prototype_names : list string :=
  [ "constructor"; "__defineGetter__"; "__defineSetter__"; "hasOwnProperty";
    "__lookupGetter__"; "__lookupSetter__"; "isPrototypeOf";
    "propertyIsEnumerable"; "toString"; "valueOf"; "__proto__";
    "toLocaleString" ]%string.

Definition inherited (k : string) : bool :=
  existsb (String.eqb k) prototype_names.

Fixpoint getOwn (o : object) (k : string) : option value :=
  match o with
  | [] => None
  | (k', v) :: rest => if String.eqb k k' then Some v else getOwn rest k
  end.

(** [o[k]]: the own property, else the inherited one, else [undefined]
    ([None]). *)
Definition get (o : object) (k : string) : option value :=
  match getOwn o k with
  | Some v => Some v
  | None => if inherited k then Some JJunk else None
  end.

(** [o[k] || 0] *)
Definition orZero (x : option value) : value :=
  match x with
  | None => JNum 0
  | Some (JNum f) => if truthy f then JNum f else JNum 0
  | Some JJunk => JJunk
  end.

(** [v + q] for a number [q]: numeric addition, or string concatenation
    when [v] is not a number. *)
Definition plus (v : value) (q : float) : value :=
  match v with
  | JNum f => JNum (f + q)
  | JJunk => JJunk
  end.

Fixpoint setOwn (o : object) (k : string) (v : value) : object :=
  match o with
  | [] => [(k, v)]
  | (k', v') :: rest =>
      if String.eqb k k' then (k', v) :: rest else (k', v') :: setOwn rest k v
  end.

(** [o[k] = v] for a primitive [v].  The inherited [__proto__] setter
    ignores primitives; any other name is written as an own property. *)
Definition set (o : object) (k : string) (v : value) : object :=
  match getOwn o k with
  | Some _ => setOwn o k v
  | None => if String.eqb k "__proto__" then o else setOwn o k v
  end.

(** *** Property order of [Object.entries]

    Array-index names come first in ascending numeric order, the other
    names follow in creation order. *)
Definition digit (c : ascii) : option N :=
  let n := N_of_ascii c in
  if ((48 <=? n) && (n <=? 57))%N then Some (n - 48)%N else None.

Fixpoint digits (s : string) (acc : N) : option N :=
  match s with
  | EmptyString => Some acc
  | String c rest =>
      match digit c with
      | Some d => digits rest (10 * acc + d)%N
      | None => None
      end
  end.

(** A canonical numeric string below [2^32 - 1]. *)
Definition arrayIndex (s : string) : option N :=
  match s with
  | EmptyString => None
  | String "0"%char EmptyString => Some 0%N
  | String "0"%char _ => None
  | _ =>
      match digits s 0%N with
      | Some n => if (n <=? 4294967294)%N then Some n else None
      | None => None
      end
  end.

Fixpoint insertIndexed (n : N) (e : string * value)
         (l : list (N * (string * value))) : list (N * (string * value)) :=
  match l with
  | [] => [(n, e)]
  | (m, e') :: rest =>
      if (n <=? m)%N then (n, e) :: l else (m, e') :: insertIndexed n e rest
  end.

Fixpoint indexed (o : object) : list (N * (string * value)) :=
  match o with
  | [] => []
  | (k, v) :: rest =>
      match arrayIndex k with
      | Some n => insertIndexed n (k, v) (indexed rest)
      | None => indexed rest
      end
  end.

Fixpoint named (o : object) : object :=
  match o with
  | [] => []
  | (k, v) :: rest =>
      match arrayIndex k with
      | Some _ => named rest
      | None => (k, v) :: named rest
      end
  end.

Definition entries (o : object) : list (string * value) :=
  map snd (indexed o) ++ named o.

End JS.

(** ** The outside world

    [getPrice] is a method of the engine that the tests replace by mocks and
    that the engine itself implements with [Math.random]; [new Date()] reads
    the clock.  Both are reads of a world [W] that the program does not
    control. *)

Class Environment (W : Type) : Type := {
  getPrice : string -> W -> float * W;
  newDate : W -> float * W
}.

(** ** Data model *)

Record Trade : Type := {
  trade_action : string;
  trade_symbol : string;
  trade_quantity : float;
  trade_price : float;
  trade_timestamp : float
}.

Record Portfolio : Type := {
  cash : float;
  positions : JS.object;
  history : list Trade
}.

Record Limits : Type := {
  maxRiskPerTrade : float;
  maxPortfolioDrawdown : float;
  maxPositionSize : float
}.

(** The risk manager's own fields; its [engine] back-reference is the
    enclosing record below. *)
Record RiskManager : Type := {
  limits : Limits;
  initialCapital : float;
  peakPortfolioValue : float
}.

Record TradingEngine : Type := {
  portfolio : Portfolio;
  mode : string;
  memory : list Trade;
  riskManager : RiskManager
}.

(** The reason strings are templates around numbers; a reason is kept as
    the template's name and the numbers it interpolates (the argument of
    [toFixed(2)] and the limit times 100). *)
Inductive Reason : Type :=
| SellOrdersAllowed
| DrawdownExceedsLimit (percent limitPercent : float)
| PositionSizeExceedsLimit (percent limitPercent : float)
| RiskPerTradeExceedsLimit (percent limitPercent : float)
| TradePassesAllRiskChecks
| InsufficientFunds.

(** The numbers behind the three ["x.xx%"] strings of [metrics]. *)
Record Metrics : Type := {
  metrics_riskPerTrade : float;
  metrics_positionSize : float;
  metrics_drawdown : float
}.

Record TradeCheck : Type := {
  allowed : bool;
  reason : Reason;
  metrics : option Metrics
}.

Record DrawdownCheck : Type := {
  dd_allowed : bool;
  currentDrawdown : float;
  peakValue : float;
  currentValue : float
}.

Record PositionCheck : Type := {
  ps_allowed : bool;
  currentSize : float;
  positionValue : float;
  portfolioValue : float
}.

Inductive BuyResult : Type :=
| Success (price quantity : float) (riskMetrics : option Metrics)
| Failure (why : Reason).

Definition success (r : BuyResult) : bool :=
  match r with
  | Success _ _ _ => true
  | Failure _ => false
  end.

(** ** Constructors *)

Definition newRiskManager (p : Portfolio) : RiskManager :=
  {| limits := {| maxRiskPerTrade := 0.01;
                  maxPortfolioDrawdown := 0.10;
                  maxPositionSize := 0.20 |};
     initialCapital := cash p;
     peakPortfolioValue := cash p |}.

Definition newTradingEngine : TradingEngine :=
  let p := {| cash := 100000; positions := []; history := [] |} in
  {| portfolio := p;
     mode := "paper";
     memory := [];
     riskManager := newRiskManager p |}.

(** Field updates. *)
Definition withPeak (e : TradingEngine) (v : float) : TradingEngine :=
  {| portfolio := portfolio e;
     mode := mode e;
     memory := memory e;
     riskManager := {| limits := limits (riskManager e);
                       initialCapital := initialCapital (riskManager e);
                       peakPortfolioValue := v |} |}.

Definition withPortfolio (e : TradingEngine) (p : Portfolio) : TradingEngine :=
  {| portfolio := p;
     mode := mode e;
     memory := memory e;
     riskManager := riskManager e |}.

Definition withMemory (e : TradingEngine) (m : list Trade) : TradingEngine :=
  {| portfolio := portfolio e;
     mode := mode e;
     memory := m;
     riskManager := riskManager e |}.

(** ** The methods *)

Section Methods.

Context {W : Type} `{Environment W}.

(** A method call: it reads and writes the engine and the world. *)
Definition M (A : Type) : Type := TradingEngine * W -> A * (TradingEngine * W).

Definition ret {A : Type} (a : A) : M A := fun s => (a, s).

Definition bind {A B : Type} (m : M A) (k : A -> M B) : M B :=
  fun s => let (a, s') := m s in k a s'.

Definition this : M TradingEngine := fun s => (fst s, s).

Definition assign (e : TradingEngine) : M unit := fun s => (tt, (e, snd s)).

Definition ask {A : Type} (f : W -> A * W) : M A :=
  fun s => let (a, w) := f (snd s) in (a, (fst s, w)).

#[local] Notation "x <- m ;; k" := (bind m (fun x => k))
  (at level 61, m at next level, right associativity).
#[local] Notation "m ;;; k" := (bind m (fun _ => k))
  (at level 61, right associativity).

(** The [for ... of Object.entries(positions)] loop of
    [getPortfolioValue]. *)
Fixpoint addPositions (es : list (string * JS.value)) (totalValue : float)
  : M float :=
  match es with
  | [] => ret totalValue
  | (symbol, quantity) :: rest =>
      price <- ask (getPrice symbol) ;;
      addPositions rest (totalValue + price * JS.toNumber quantity)
  end.

Definition getPortfolioValue : M float :=
  e <- this ;;
  totalValue <- addPositions (JS.entries (positions (portfolio e)))
                             (cash (portfolio e)) ;;
  e <- this ;;
  (if peakPortfolioValue (riskManager e) <? totalValue
   then assign (withPeak e totalValue)
   else ret tt) ;;;
  ret totalValue.

Definition checkDrawdown : M DrawdownCheck :=
  currentValue <- getPortfolioValue ;;
  e <- this ;;
  let peak := peakPortfolioValue (riskManager e) in
  let drawdown := (peak - currentValue) / peak in
  ret {| dd_allowed := drawdown <=? maxPortfolioDrawdown (limits (riskManager e));
         currentDrawdown := drawdown;
         peakValue := peak;
         currentValue := currentValue |}.

Definition checkPositionSize (symbol : string) (additionalQuantity price : float)
  : M PositionCheck :=
  portfolioValue <- getPortfolioValue ;;
  e <- this ;;
  let currentQuantity := JS.orZero (JS.get (positions (portfolio e)) symbol) in
  let newQuantity := JS.plus currentQuantity additionalQuantity in
  let positionValue := JS.toNumber newQuantity * price in
  let positionSize := positionValue / portfolioValue in
  ret {| ps_allowed := positionSize <=? maxPositionSize (limits (riskManager e));
         currentSize := positionSize;
         positionValue := positionValue;
         portfolioValue := portfolioValue |}.

Definition checkTrade (action symbol : string) (quantity price : float)
  : M TradeCheck :=
  if negb (String.eqb action "buy") then
    ret {| allowed := true; reason := SellOrdersAllowed; metrics := None |}
  else
    drawdownCheck <- checkDrawdown ;;
    e <- this ;;
    if negb (dd_allowed drawdownCheck) then
      ret {| allowed := false;
             reason := DrawdownExceedsLimit
                         (currentDrawdown drawdownCheck * 100)
                         (maxPortfolioDrawdown (limits (riskManager e)) * 100);
             metrics := None |}
    else
      positionCheck <- checkPositionSize symbol quantity price ;;
      e <- this ;;
      if negb (ps_allowed positionCheck) then
        ret {| allowed := false;
               reason := PositionSizeExceedsLimit
                           (currentSize positionCheck * 100)
                           (maxPositionSize (limits (riskManager e)) * 100);
               metrics := None |}
      else
        portfolioValue <- getPortfolioValue ;;
        e <- this ;;
        let tradeCost := price * quantity in
        let riskPerTrade := tradeCost / portfolioValue in
        if maxRiskPerTrade (limits (riskManager e)) <? riskPerTrade then
          ret {| allowed := false;
                 reason := RiskPerTradeExceedsLimit
                             (riskPerTrade * 100)
                             (maxRiskPerTrade (limits (riskManager e)) * 100);
                 metrics := None |}
        else
          ret {| allowed := true;
                 reason := TradePassesAllRiskChecks;
                 metrics := Some
                   {| metrics_riskPerTrade := riskPerTrade * 100;
                      metrics_positionSize := currentSize positionCheck * 100;
                      metrics_drawdown := currentDrawdown drawdownCheck * 100 |} |}.

Definition recordTrade (action symbol : string) (quantity price : float)
  : M unit :=
  timestamp <- ask newDate ;;
  let trade := {| trade_action := action;
                  trade_symbol := symbol;
                  trade_quantity := quantity;
                  trade_price := price;
                  trade_timestamp := timestamp |} in
  e <- this ;;
  let p := portfolio e in
  assign (withPortfolio e {| cash := cash p;
                             positions := positions p;
                             history := history p ++ [trade] |}) ;;;
  e <- this ;;
  assign (withMemory e (memory e ++ [trade])).

Definition buy (symbol : string) (quantity : float) : M BuyResult :=
  price <- ask (getPrice symbol) ;;
  let cost := price * quantity in
  riskCheck <- checkTrade "buy" symbol quantity price ;;
  if negb (allowed riskCheck) then
    ret (Failure (reason riskCheck))
  else
    e <- this ;;
    if cost <=? cash (portfolio e) then
      (let p := portfolio e in
       assign (withPortfolio e {| cash := cash p - cost;
                                  positions := positions p;
                                  history := history p |})) ;;;
      e <- this ;;
      (let p := portfolio e in
       assign (withPortfolio e
         {| cash := cash p;
            positions :=
              JS.set (positions p) symbol
                     (JS.plus (JS.orZero (JS.get (positions p) symbol)) quantity);
            history := history p |})) ;;;
      recordTrade "buy" symbol quantity price ;;;
      ret (Success price quantity (metrics riskCheck))
    else
      ret (Failure InsufficientFunds).

End Methods.

Arguments M W : clear implicits.

(** ** Two worlds *)

(** The mock of the test-suite ([jest.fn().mockResolvedValue(p)]): every
    symbol has the same price, the clock stands still. *)
Record Mock : Type := {
  mock_price : float;
  mock_clock : float
}.

#[export] Instance Mock_Environment : Environment Mock := {
  getPrice := fun _ w => (mock_price w, w);
  newDate := fun w => (mock_clock w, w)
}.

(** The engine's own [getPrice], [150 + Math.random() * 10]: the world is the
    sequence of numbers [Math.random] is going to return. *)
Record Live : Type := {
  random : nat -> float;
  drawn : nat;
  clock : float
}.

#[export] Instance Live_Environment : Environment Live := {
  getPrice := fun _ w =>
    (150 + random w (drawn w) * 10,
     {| random := random w; drawn := S (drawn w); clock := clock w |});
  newDate := fun w => (clock w, w)
}.

(** A price source that records the symbols it is asked for, as the
    test-suite's [jest.fn] does. *)
Record Spy : Type := {
  spy_quote : string -> float;
  spy_asked : list string
}.

#[export] Instance Spy_Environment : Environment Spy := {
  getPrice := fun k w =>
    (spy_quote w k, {| spy_quote := spy_quote w; spy_asked := spy_asked w ++ [k] |});
  newDate := fun w => (0, w)
}.

(** ** Sequences of calls *)

Inductive Call : Type :=
| CallGetPortfolioValue
| CallCheckDrawdown
| CallCheckPositionSize (symbol : string) (additionalQuantity price : float)
| CallCheckTrade (action symbol : string) (quantity price : float)
| CallBuy (symbol : string) (quantity : float).

Definition call {W : Type} `{Environment W} (c : Call)
  (s : TradingEngine * W) : TradingEngine * W :=
  match c with
  | CallGetPortfolioValue => snd (getPortfolioValue s)
  | CallCheckDrawdown => snd (checkDrawdown s)
  | CallCheckPositionSize symbol q p => snd (checkPositionSize symbol q p s)
  | CallCheckTrade a symbol q p => snd (checkTrade a symbol q p s)
  | CallBuy symbol q => snd (buy symbol q s)
  end.

Definition calls {W : Type} `{Environment W} (cs : list Call)
  (s : TradingEngine * W) : TradingEngine * W :=
  fold_left (fun s c => call c s) cs s.

Definition isBuy (c : Call) : bool :=
  match c with
  | CallBuy _ _ => true
  | _ => false
  end.

(** ** Reading a state *)

Definition peak {W : Type} (s : TradingEngine * W) : float :=
  peakPortfolioValue (riskManager (fst s)).

Definition ledger {W : Type} (s : TradingEngine * W) : Portfolio :=
  portfolio (fst s).

Definition limitsOf {W : Type} (s : TradingEngine * W) : Limits :=
  limits (riskManager (fst s)).

(** The quantity held of a symbol, zero when the ledger has no entry. *)
Definition quantityOf (o : JS.object) (k : string) : float :=
  match JS.getOwn o k with
  | Some v => JS.toNumber v
  | None => 0
  end.

(** The part of the engine that no risk check writes: everything but the
    high-water mark. *)
Definition sameButPeak (e e' : TradingEngine) : Prop :=
  portfolio e' = portfolio e /\ mode e' = mode e /\ memory e' = memory e /\
  limits (riskManager e') = limits (riskManager e) /\
  initialCapital (riskManager e') = initialCapital (riskManager e).

(** The three stages of [checkTrade] on a buy, each run from the state the
    previous one left. *)
Section Stages.

Context {W : Type} `{Environment W}.

Definition drawdownStage (s : TradingEngine * W) : DrawdownCheck :=
  fst (checkDrawdown s).

Definition afterDrawdown (s : TradingEngine * W) : TradingEngine * W :=
  snd (checkDrawdown s).

Definition positionStage (symbol : string) (quantity price : float)
  (s : TradingEngine * W) : PositionCheck :=
  fst (checkPositionSize symbol quantity price (afterDrawdown s)).

Definition afterPosition (symbol : string) (quantity price : float)
  (s : TradingEngine * W) : TradingEngine * W :=
  snd (checkPositionSize symbol quantity price (afterDrawdown s)).

Definition riskPerTrade (symbol : string) (quantity price : float)
  (s : TradingEngine * W) : float :=
  price * quantity / fst (getPortfolioValue (afterPosition symbol quantity price s)).

Definition afterRisk (symbol : string) (quantity price : float)
  (s : TradingEngine * W) : TradingEngine * W :=
  snd (getPortfolioValue (afterPosition symbol quantity price s)).

(** [buy] up to its risk check: the price it read and the state in which
    [checkTrade] runs. *)
Definition quoted (symbol : string) (s : TradingEngine * W) : float :=
  fst (getPrice symbol (snd s)).

Definition afterQuote (symbol : string) (s : TradingEngine * W)
  : TradingEngine * W :=
  (fst s, snd (getPrice symbol (snd s))).

Definition riskCheckOf (symbol : string) (quantity : float)
  (s : TradingEngine * W) : TradeCheck :=
  fst (checkTrade "buy" symbol quantity (quoted symbol s) (afterQuote symbol s)).

Definition afterRiskCheck (symbol : string) (quantity : float)
  (s : TradingEngine * W) : TradingEngine * W :=
  snd (checkTrade "buy" symbol quantity (quoted symbol s) (afterQuote symbol s)).

End Stages.

(** ** The test-suite's engine states *)

Definition mockEngine (cash0 : float) (pos : JS.object) (peak : float)
  : TradingEngine :=
  {| portfolio := {| cash := cash0; positions := pos; history := [] |};
     mode := "paper";
     memory := [];
     riskManager := {| limits := limits (riskManager newTradingEngine);
                       initialCapital := 100000;
                       peakPortfolioValue := peak |} |}.

Definition mock150 : Mock := {| mock_price := 150; mock_clock := 0 |}.

(** The engine's own world when [Math.random] keeps returning [r]. *)
Definition steady (r : float) : Live :=
  {| random := fun _ => r; drawn := 0; clock := 0 |}.

(** A high-water mark [p'] that is not below [p]. *)
Definition noLower (p p' : float) : Prop :=
  p' = p \/ (p <=? p') = true.

(** ** The risk report *)

(** [getRiskMetrics] renders its numbers with [toFixed(2)]; the records
    below hold the numbers that are rendered. *)
Record PositionDetail : Type := {
  pd_quantity : JS.value;
  pd_value : float;
  pd_percentOfPortfolio : float
}.

Record RiskMetrics : Type := {
  rm_portfolioValue : float;
  rm_peakValue : float;
  rm_drawdown : float;
  rm_drawdownAllowed : bool;
  rm_positions : list (string * PositionDetail);
  rm_maxRiskPerTrade : float;
  rm_maxDrawdown : float;
  rm_maxPositionSize : float
}.

(** [positions[symbol] = detail] on the report's own [positions] object.  The
    value is an object, so under the name [__proto__] the inherited setter
    takes it as the new prototype and no own property appears. *)
Fixpoint putDetail (o : list (string * PositionDetail)) (k : string)
  (d : PositionDetail) : list (string * PositionDetail) :=
  match o with
  | [] => if String.eqb k "__proto__" then [] else [(k, d)]
  | (k', d') :: rest =>
      if String.eqb k k' then (k', d) :: rest else (k', d') :: putDetail rest k d
  end.

Section Report.

Context {W : Type} `{Environment W}.

(** The second loop of [getRiskMetrics]. *)
Fixpoint describePositions (es : list (string * JS.value)) (portfolioValue : float)
  (positions : list (string * PositionDetail))
  : M W (list (string * PositionDetail)) :=
  match es with
  | [] => ret positions
  | (symbol, quantity) :: rest =>
      bind (ask (getPrice symbol)) (fun price =>
        let value := JS.toNumber quantity * price in
        describePositions rest portfolioValue
          (putDetail positions symbol
             {| pd_quantity := quantity;
                pd_value := value;
                pd_percentOfPortfolio := value / portfolioValue * 100 |}))
  end.

Definition getRiskMetrics : M W RiskMetrics :=
  bind getPortfolioValue (fun portfolioValue =>
  bind checkDrawdown (fun drawdown =>
  bind this (fun e =>
  bind (describePositions (JS.entries (positions (portfolio e))) portfolioValue [])
       (fun positions =>
  bind this (fun e =>
  ret {| rm_portfolioValue := portfolioValue;
         rm_peakValue := peakPortfolioValue (riskManager e);
         rm_drawdown := currentDrawdown drawdown * 100;
         rm_drawdownAllowed := dd_allowed drawdown;
         rm_positions := positions;
         rm_maxRiskPerTrade := maxRiskPerTrade (limits (riskManager e)) * 100;
         rm_maxDrawdown := maxPortfolioDrawdown (limits (riskManager e)) * 100;
         rm_maxPositionSize := maxPositionSize (limits (riskManager e)) * 100 |}))))).

End Report.

(** ** Readers of the ledger *)

(** [GOAPAgent.plan] ([src/agents/GOAPAgent.js]): a decision read off the
    engine's cash and the number of symbols held. *)
Record Plan : Type := {
  plan_action : string;
  plan_reason : string
}.

Definition plan (e : TradingEngine) : Plan :=
  let cash := cash (portfolio e) in
  let positions := List.length (JS.entries (positions (portfolio e))) in
  if (10000 <? cash) && (positions <? 5)%nat then
    {| plan_action := "buy"; plan_reason := "Cash available, diversifying" |}
  else if (0 <? positions)%nat then
    {| plan_action := "hold"; plan_reason := "Monitoring positions" |}
  else
    {| plan_action := "analyze"; plan_reason := "Gathering market data" |}.

(** The [/api/history] handler of the dashboard server.  [Limit] is the value
    of its [limit] constant: [undefined] when the query names no limit, else
    what [parseInt] returned, which is NaN, an integer or an infinity. *)
Inductive Limit : Type :=
| LimitUndefined
| LimitNaN
| LimitInt (n : Z)
| LimitInfinity (negative : bool).

(** [ToBoolean(limit)] *)
Definition limitGiven (l : Limit) : bool :=
  match l with
  | LimitUndefined => false
  | LimitNaN => false
  | LimitInt n => negb (n =? 0)%Z
  | LimitInfinity _ => true
  end.

(** [a.slice(0, end)]: a negative [end] counts from the end of the array, an
    [undefined] one is the length. *)
Definition slice0 {A : Type} (a : list A) (l : Limit) : list A :=
  let len := Z.of_nat (List.length a) in
  let final :=
    match l with
    | LimitUndefined => len
    | LimitNaN => 0%Z
    | LimitInt n => if (n <? 0)%Z then Z.max (len + n) 0 else Z.min n len
    | LimitInfinity true => 0%Z
    | LimitInfinity false => len
    end in
  firstn (Z.to_nat final) a.

Definition historyResponse (limit : Limit) (e : TradingEngine) : list Trade :=
  let history := rev (history (portfolio e)) in
  if limitGiven limit then slice0 history limit else history.

(** ** The ledger as the replay of its trades *)

Definition applyTrade (p : float * JS.object) (t : Trade) : float * JS.object :=
  (fst p - trade_price t * trade_quantity t,
   JS.set (snd p) (trade_symbol t)
     (JS.plus (JS.orZero (JS.get (snd p) (trade_symbol t))) (trade_quantity t))).

Definition replay (p : float * JS.object) (ts : list Trade) : float * JS.object :=
  fold_left applyTrade ts p.

(** Every quantity held is a number. *)
Definition numeric (o : JS.object) : Prop :=
  forall k v, In (k, v) o -> exists n, v = JS.JNum n /\ is_nan n = false.

(** What one call adds to the trade log, and what it does to cash and
    positions. *)
Definition extends {W : Type} (s s' : TradingEngine * W) (extra : list Trade)
  : Prop :=
  history (ledger s') = history (ledger s) ++ extra /\
  memory (fst s') = memory (fst s) ++ extra /\
  (cash (ledger s'), positions (ledger s'))
  = replay (cash (ledger s), positions (ledger s)) extra /\
  Forall (fun t => trade_action t = "buy"%string) extra /\
  limits (riskManager (fst s')) = limits (riskManager (fst s)) /\
  initialCapital (riskManager (fst s')) = initialCapital (riskManager (fst s)) /\
  mode (fst s') = mode (fst s).

(** ** Signs on the specification side *)

(** The mantissa of a shift record, and a specified number, that are not
    negative. *)
Definition shr_nonneg (mrs : shr_record) : Prop := (0 <= shr_m mrs)%Z.

Definition SFnonneg (x : spec_float) : Prop := SFleb (S754_zero false) x = true.

(** * Properties *)

(** ** The embedding against the repository's tests *)

Example test_allow_within_limit :
  let r := fst (checkTrade "buy" "AAPL" 6 150 (mockEngine 100000 [] 100000, mock150)) in
  allowed r = true /\ reason r = TradePassesAllRiskChecks.
Proof. vm_compute. split; reflexivity. Qed.

Example test_reject_over_limit :
  exists p l,
    fst (checkTrade "buy" "AAPL" 100 150 (mockEngine 100000 [] 100000, mock150))
    = {| allowed := false; reason := RiskPerTradeExceedsLimit p l; metrics := None |}
    /\ l = 1 /\ p = 15.
Proof. eexists; eexists. vm_compute. repeat split; reflexivity. Qed.

Example test_drawdown_at_threshold :
  let r := fst (checkDrawdown (mockEngine 90000 [] 100000, mock150)) in
  dd_allowed r = true /\ currentDrawdown r = 0.10.
Proof. vm_compute. split; reflexivity. Qed.

Example test_position_at_threshold :
  let r := fst (checkPositionSize "GOOGL" 10 2000 (mockEngine 100000 [] 100000, mock150)) in
  ps_allowed r = true /\ currentSize r = 0.20.
Proof. vm_compute. split; reflexivity. Qed.

Example test_zero_cash_portfolio :
  exists p l,
    fst (checkTrade "buy" "GOOGL" 1 2800
           (mockEngine 0 [("AAPL"%string, JS.JNum 100)] 15000, mock150))
    = {| allowed := false; reason := RiskPerTradeExceedsLimit p l; metrics := None |}.
Proof. eexists; eexists. vm_compute. reflexivity. Qed.

Example test_portfolio_value_zero :
  allowed (fst (checkTrade "buy" "AAPL" 1 150 (mockEngine 0 [] 100000, mock150)))
  = false.
Proof. vm_compute. reflexivity. Qed.

Example test_sum_of_positions :
  fst (getPortfolioValue
         (mockEngine 100000 [("AAPL"%string, JS.JNum 100)] 100000, mock150))
  = 115000.
Proof. vm_compute. reflexivity. Qed.

(** ** binary64 comparisons and special values *)

Ltac fold_cont :=
  repeat match goal with
  | |- context [Pos.compare_cont Eq ?a ?b] =>
      change (Pos.compare_cont Eq a b) with (Pos.compare a b)
  end.

Lemma SFcompare_antisym (x y : spec_float) :
  SFcompare y x = option_map CompOpp (SFcompare x y).
Proof.
  destruct x as [sx|sx| |sx mx ex], y as [sy|sy| |sy my ey]; simpl;
    try destruct sx; try destruct sy; try reflexivity; fold_cont;
    rewrite (Z.compare_antisym ex ey), (Pos.compare_antisym mx my);
    destruct (ex ?= ey)%Z; simpl; try reflexivity;
    destruct (mx ?= my)%positive; reflexivity.
Qed.

Lemma SFcompare_refl (x : spec_float) :
  x <> S754_nan -> SFcompare x x = Some Eq.
Proof.
  destruct x as [s|s| |s m e]; simpl; intros Hx; try congruence;
    destruct s; try reflexivity; fold_cont;
    rewrite Z.compare_refl, Pos.compare_refl; reflexivity.
Qed.

Lemma SFcompare_nan_iff (x y : spec_float) :
  SFcompare x y = None <-> x = S754_nan \/ y = S754_nan.
Proof.
  destruct x as [sx|sx| |sx mx ex], y as [sy|sy| |sy my ey]; simpl;
    split; intros Hn; try discriminate; auto;
    destruct Hn; discriminate.
Qed.

Lemma SFleb_trans (x y z : spec_float) :
  SFleb x y = true -> SFleb y z = true -> SFleb x z = true.
Proof.
  unfold SFleb.
  destruct x as [sx|sx| |sx mx ex], y as [sy|sy| |sy my ey], z as [sz|sz| |sz mz ez];
    simpl; try discriminate; try reflexivity;
    try destruct sx; try destruct sy; try destruct sz;
    simpl; try discriminate; try reflexivity;
    fold_cont;
    destruct (Z.compare_spec ex ey), (Z.compare_spec ey ez); simpl; try discriminate;
    destruct (Z.compare_spec ex ez); try lia; simpl; try reflexivity; subst;
    destruct (Pos.compare_spec mx my), (Pos.compare_spec my mz); simpl; try discriminate;
    destruct (Pos.compare_spec mx mz); simpl; try reflexivity; try lia.
Qed.


(** Comparisons of [float]s, read through their specification. *)
Ltac to_spec :=
  rewrite ?FloatAxioms.ltb_spec, ?FloatAxioms.leb_spec, ?FloatAxioms.eqb_spec in *;
  unfold SFltb, SFleb, SFeqb in *.

Lemma is_nan_spec (x : float) : is_nan x = true <-> Prim2SF x = S754_nan.
Proof.
  unfold is_nan. rewrite FloatAxioms.eqb_spec. unfold SFeqb. split.
  - intros Hx. destruct (Prim2SF x) as [s|s| |s m e] eqn:E; try reflexivity;
      rewrite SFcompare_refl in Hx by discriminate; discriminate.
  - intros ->. reflexivity.
Qed.

Lemma is_nan_false (x : float) : is_nan x = false <-> Prim2SF x <> S754_nan.
Proof.
  rewrite <- is_nan_spec. destruct (is_nan x); split; congruence.
Qed.

Lemma ltb_of_leb (x y : float) : (x <=? y) = true -> (y <? x) = false.
Proof.
  to_spec. rewrite (SFcompare_antisym (Prim2SF x) (Prim2SF y)).
  destruct (SFcompare (Prim2SF x) (Prim2SF y)) as [[ | | ]|]; simpl; congruence.
Qed.

Lemma leb_of_ltb_flip (x y : float) : (x <? y) = true -> (y <=? x) = false.
Proof.
  to_spec. rewrite (SFcompare_antisym (Prim2SF x) (Prim2SF y)).
  destruct (SFcompare (Prim2SF x) (Prim2SF y)) as [[ | | ]|]; simpl; congruence.
Qed.

Lemma leb_of_ltb (x y : float) : (x <? y) = true -> (x <=? y) = true.
Proof.
  to_spec. destruct (SFcompare (Prim2SF x) (Prim2SF y)) as [[ | | ]|]; congruence.
Qed.

Lemma leb_of_eqb (x y : float) : (x =? y) = true -> (x <=? y) = true.
Proof.
  to_spec. destruct (SFcompare (Prim2SF x) (Prim2SF y)) as [[ | | ]|]; congruence.
Qed.

Lemma leb_trans (x y z : float) :
  (x <=? y) = true -> (y <=? z) = true -> (x <=? z) = true.
Proof. rewrite !FloatAxioms.leb_spec. apply SFleb_trans. Qed.

Lemma leb_refl (x : float) : is_nan x = false -> (x <=? x) = true.
Proof.
  rewrite is_nan_false. intros Hx. to_spec.
  rewrite SFcompare_refl by assumption. reflexivity.
Qed.

Lemma eqb_refl (x : float) : is_nan x = false -> (x =? x) = true.
Proof.
  rewrite is_nan_false. intros Hx. to_spec.
  rewrite SFcompare_refl by assumption. reflexivity.
Qed.

Lemma ltb_irrefl (x : float) : (x <? x) = false.
Proof.
  destruct (x <? x) eqn:E; [|reflexivity].
  pose proof (leb_of_ltb _ _ E) as Hle. apply ltb_of_leb in Hle. congruence.
Qed.

Lemma ltb_total (x y : float) :
  is_nan x = false -> is_nan y = false -> (y <=? x) = false -> (x <? y) = true.
Proof.
  rewrite !is_nan_false. intros Hx Hy. to_spec.
  rewrite (SFcompare_antisym (Prim2SF x) (Prim2SF y)).
  destruct (SFcompare (Prim2SF x) (Prim2SF y)) as [[ | | ]|] eqn:E; simpl; try congruence.
  apply SFcompare_nan_iff in E. tauto.
Qed.


Lemma leb_not_nan (x y : float) :
  (x <=? y) = true -> is_nan x = false /\ is_nan y = false.
Proof.
  intros Hle. rewrite !is_nan_false. to_spec.
  destruct (SFcompare (Prim2SF x) (Prim2SF y)) eqn:E; [|discriminate].
  split; intros Hn; rewrite Hn in E;
    [|destruct (Prim2SF x)]; discriminate.
Qed.

Lemma ltb_not_nan (x y : float) :
  (x <? y) = true -> is_nan x = false /\ is_nan y = false.
Proof. intros Hlt. apply leb_not_nan, leb_of_ltb, Hlt. Qed.

(** NaN is absorbing for the four operations. *)
Lemma add_nan_l (x y : float) : is_nan x = true -> is_nan (x + y) = true.
Proof. rewrite !is_nan_spec, add_spec. intros ->. reflexivity. Qed.

Lemma add_nan_r (x y : float) : is_nan y = true -> is_nan (x + y) = true.
Proof.
  rewrite !is_nan_spec, add_spec. intros ->.
  destruct (Prim2SF x); reflexivity.
Qed.

Lemma sub_nan_l (x y : float) : is_nan x = true -> is_nan (x - y) = true.
Proof. rewrite !is_nan_spec, sub_spec. intros ->. reflexivity. Qed.

Lemma sub_nan_r (x y : float) : is_nan y = true -> is_nan (x - y) = true.
Proof.
  rewrite !is_nan_spec, sub_spec. intros ->.
  destruct (Prim2SF x); reflexivity.
Qed.

Lemma mul_nan_l (x y : float) : is_nan x = true -> is_nan (x * y) = true.
Proof. rewrite !is_nan_spec, mul_spec. intros ->. reflexivity. Qed.

Lemma mul_nan_r (x y : float) : is_nan y = true -> is_nan (x * y) = true.
Proof.
  rewrite !is_nan_spec, mul_spec. intros ->.
  destruct (Prim2SF x); reflexivity.
Qed.

Lemma div_nan_l (x y : float) : is_nan x = true -> is_nan (x / y) = true.
Proof. rewrite !is_nan_spec, div_spec. intros ->. reflexivity. Qed.

Lemma div_nan_r (x y : float) : is_nan y = true -> is_nan (x / y) = true.
Proof.
  rewrite !is_nan_spec, div_spec. intros ->.
  destruct (Prim2SF x); reflexivity.
Qed.

Lemma is_zero_spec (x : float) :
  is_zero x = true <-> exists s, Prim2SF x = S754_zero s.
Proof.
  unfold is_zero. rewrite FloatAxioms.eqb_spec. unfold SFeqb.
  change (Prim2SF 0) with (S754_zero false). split.
  - destruct (Prim2SF x) as [s|s| |s m e]; simpl; try discriminate.
    + eauto.
    + destruct s; discriminate.
    + destruct s; discriminate.
  - intros [s ->]. reflexivity.
Qed.


(** Adding to either zero gives numerically equal sums. *)
Lemma add_zero_eqb (z q : float) :
  is_zero z = true -> is_nan (0 + q) = false -> (0 + q =? z + q) = true.
Proof.
  rewrite is_zero_spec, is_nan_false. intros [s Hz] Hq.
  rewrite FloatAxioms.eqb_spec. unfold SFeqb. rewrite add_spec in Hq.
  rewrite !add_spec, Hz. change (Prim2SF 0) with (S754_zero false) in *.
  destruct (Prim2SF q) as [sq|sq| |sq m e]; try (exfalso; apply Hq; reflexivity).
  - destruct s, sq; reflexivity.
  - destruct s, sq; reflexivity.
  - unfold SF64add, SFadd.
    destruct s; rewrite SFcompare_refl by discriminate; reflexivity.
Qed.

(** ** The methods, step by step *)

Section MethodFacts.

Context {W : Type} `{Environment W}.

Lemma bind_eq {A B : Type} (m : M W A) (k : A -> M W B) (s : TradingEngine * W) :
  bind m k s = k (fst (m s)) (snd (m s)).
Proof. unfold bind. destruct (m s). reflexivity. Qed.

Lemma sameButPeak_refl (e : TradingEngine) : sameButPeak e e.
Proof. repeat split. Qed.

Lemma sameButPeak_trans (e1 e2 e3 : TradingEngine) :
  sameButPeak e1 e2 -> sameButPeak e2 e3 -> sameButPeak e1 e3.
Proof.
  unfold sameButPeak. intros (A1 & A2 & A3 & A4 & A5) (B1 & B2 & B3 & B4 & B5).
  repeat split; congruence.
Qed.

Lemma sameButPeak_withPeak (e : TradingEngine) (v : float) :
  sameButPeak e (withPeak e v).
Proof. repeat split. Qed.

(** The price loop reads the world and leaves the engine alone. *)
Lemma addPositions_engine (es : list (string * JS.value)) (t : float)
  (e : TradingEngine) (w : W) :
  fst (snd (addPositions es t (e, w))) = e.
Proof.
  revert t w. induction es as [|[symbol quantity] rest IH]; intros t w.
  - reflexivity.
  - simpl. unfold bind, ask. simpl.
    destruct (getPrice symbol w) as [price w']. apply IH.
Qed.

Lemma getPortfolioValue_eq (e : TradingEngine) (w : W) :
  getPortfolioValue (e, w) =
  let r := addPositions (JS.entries (positions (portfolio e)))
                        (cash (portfolio e)) (e, w) in
  (fst r,
   (if peakPortfolioValue (riskManager e) <? fst r then withPeak e (fst r) else e,
    snd (snd r))).
Proof.
  unfold getPortfolioValue, bind, this, assign, ret. simpl.
  pose proof (addPositions_engine (JS.entries (positions (portfolio e)))
                (cash (portfolio e)) e w) as He.
  destruct (addPositions _ _ (e, w)) as [v [e' w']]. simpl in *. subst e'.
  destruct (peakPortfolioValue (riskManager e) <? v); reflexivity.
Qed.

(** The ratchet: the only write to [peakPortfolioValue]. *)
Lemma getPortfolioValue_peak (s : TradingEngine * W) :
  peak (snd (getPortfolioValue s)) =
  if peak s <? fst (getPortfolioValue s) then fst (getPortfolioValue s) else peak s.
Proof.
  destruct s as [e w]. rewrite getPortfolioValue_eq. unfold peak. simpl.
  destruct (peakPortfolioValue (riskManager e) <? _); reflexivity.
Qed.

Lemma getPortfolioValue_frame (s : TradingEngine * W) :
  sameButPeak (fst s) (fst (snd (getPortfolioValue s))).
Proof.
  destruct s as [e w]. rewrite getPortfolioValue_eq. simpl.
  destruct (peakPortfolioValue (riskManager e) <? _).
  - apply sameButPeak_withPeak.
  - apply sameButPeak_refl.
Qed.

Lemma checkDrawdown_eq (s : TradingEngine * W) :
  checkDrawdown s =
  let v := fst (getPortfolioValue s) in
  let s' := snd (getPortfolioValue s) in
  let drawdown := (peak s' - v) / peak s' in
  ({| dd_allowed := drawdown <=? maxPortfolioDrawdown (limitsOf s');
      currentDrawdown := drawdown;
      peakValue := peak s';
      currentValue := v |}, s').
Proof.
  unfold checkDrawdown, bind, this, ret.
  destruct (getPortfolioValue s) as [v [e w]]. reflexivity.
Qed.

Lemma checkPositionSize_eq (symbol : string) (q price : float)
  (s : TradingEngine * W) :
  checkPositionSize symbol q price s =
  let v := fst (getPortfolioValue s) in
  let s' := snd (getPortfolioValue s) in
  let newQuantity := JS.plus (JS.orZero (JS.get (positions (ledger s')) symbol)) q in
  let positionValue := JS.toNumber newQuantity * price in
  ({| ps_allowed := positionValue / v <=? maxPositionSize (limitsOf s');
      currentSize := positionValue / v;
      positionValue := positionValue;
      portfolioValue := v |}, s').
Proof.
  unfold checkPositionSize, bind, this, ret.
  destruct (getPortfolioValue s) as [v [e w]]. reflexivity.
Qed.

Lemma checkDrawdown_frame (s : TradingEngine * W) :
  sameButPeak (fst s) (fst (afterDrawdown s)).
Proof.
  unfold afterDrawdown. rewrite checkDrawdown_eq. apply getPortfolioValue_frame.
Qed.

Lemma checkPositionSize_frame (symbol : string) (q price : float)
  (s : TradingEngine * W) :
  sameButPeak (fst s) (fst (snd (checkPositionSize symbol q price s))).
Proof. rewrite checkPositionSize_eq. apply getPortfolioValue_frame. Qed.

(** [checkTrade] on a buy, as a decision list over its three stages. *)
Lemma checkTrade_buy_eq (symbol : string) (q price : float)
  (s : TradingEngine * W) :
  checkTrade "buy" symbol q price s =
  let d := drawdownStage s in
  let p := positionStage symbol q price s in
  let risk := riskPerTrade symbol q price s in
  if negb (dd_allowed d) then
    ({| allowed := false;
        reason := DrawdownExceedsLimit
                    (currentDrawdown d * 100)
                    (maxPortfolioDrawdown (limitsOf (afterDrawdown s)) * 100);
        metrics := None |}, afterDrawdown s)
  else if negb (ps_allowed p) then
    ({| allowed := false;
        reason := PositionSizeExceedsLimit
                    (currentSize p * 100)
                    (maxPositionSize (limitsOf (afterPosition symbol q price s)) * 100);
        metrics := None |}, afterPosition symbol q price s)
  else if maxRiskPerTrade (limitsOf (afterRisk symbol q price s)) <? risk then
    ({| allowed := false;
        reason := RiskPerTradeExceedsLimit
                    (risk * 100)
                    (maxRiskPerTrade (limitsOf (afterRisk symbol q price s)) * 100);
        metrics := None |}, afterRisk symbol q price s)
  else
    ({| allowed := true;
        reason := TradePassesAllRiskChecks;
        metrics := Some {| metrics_riskPerTrade := risk * 100;
                           metrics_positionSize := currentSize p * 100;
                           metrics_drawdown := currentDrawdown d * 100 |} |},
     afterRisk symbol q price s).
Proof.
  unfold riskPerTrade, afterRisk, positionStage, afterPosition, drawdownStage,
    afterDrawdown, limitsOf.
  unfold checkTrade. rewrite String.eqb_refl.
  change (negb true) with false. cbv iota.
  rewrite (bind_eq checkDrawdown), (bind_eq this). unfold this at 1 2.
  cbn [fst snd].
  destruct (dd_allowed (fst (checkDrawdown s))); cbn [negb]; cbv iota;
    [|reflexivity].
  rewrite (bind_eq (checkPositionSize _ _ _)), (bind_eq this). unfold this at 1 2.
  cbn [fst snd].
  destruct (ps_allowed (fst (checkPositionSize symbol q price (snd (checkDrawdown s)))));
    cbn [negb]; cbv iota; [|reflexivity].
  rewrite (bind_eq getPortfolioValue), (bind_eq this). unfold this at 1 2.
  cbn [fst snd].
  destruct (_ <? _); reflexivity.
Qed.

(** A check that is not a buy touches nothing. *)
Lemma checkTrade_other_eq (action symbol : string) (q price : float)
  (s : TradingEngine * W) :
  action <> "buy"%string ->
  checkTrade action symbol q price s =
  ({| allowed := true; reason := SellOrdersAllowed; metrics := None |}, s).
Proof.
  intros Ha. unfold checkTrade.
  destruct (String.eqb_spec action "buy") as [E|E]; [contradiction|reflexivity].
Qed.

Lemma checkTrade_frame (action symbol : string) (q price : float)
  (s : TradingEngine * W) :
  sameButPeak (fst s) (fst (snd (checkTrade action symbol q price s))).
Proof.
  destruct (String.eqb_spec action "buy") as [->|E].
  - rewrite checkTrade_buy_eq. cbv zeta.
    assert (A1 : sameButPeak (fst s) (fst (afterDrawdown s)))
      by apply checkDrawdown_frame.
    assert (A2 : sameButPeak (fst s) (fst (afterPosition symbol q price s))).
    { eapply sameButPeak_trans; [exact A1|]. apply checkPositionSize_frame. }
    assert (A3 : sameButPeak (fst s) (fst (afterRisk symbol q price s))).
    { eapply sameButPeak_trans; [exact A2|]. apply getPortfolioValue_frame. }
    destruct (negb (dd_allowed _)); [exact A1|].
    destruct (negb (ps_allowed _)); [exact A2|].
    destruct (_ <? _); exact A3.
  - rewrite checkTrade_other_eq by assumption. apply sameButPeak_refl.
Qed.


(** [buy], as a decision list over the risk check and the funds check. *)
Lemma buy_eq (symbol : string) (q : float) (s : TradingEngine * W) :
  buy symbol q s =
  let price := quoted symbol s in
  let rc := riskCheckOf symbol q s in
  let s1 := afterRiskCheck symbol q s in
  let p := ledger s1 in
  if negb (allowed rc) then (Failure (reason rc), s1)
  else if price * q <=? cash p then
    let trade := {| trade_action := "buy";
                    trade_symbol := symbol;
                    trade_quantity := q;
                    trade_price := price;
                    trade_timestamp := fst (newDate (snd s1)) |} in
    (Success price q (metrics rc),
     ({| portfolio :=
           {| cash := cash p - price * q;
              positions :=
                JS.set (positions p) symbol
                  (JS.plus (JS.orZero (JS.get (positions p) symbol)) q);
              history := history p ++ [trade] |};
         mode := mode (fst s1);
         memory := memory (fst s1) ++ [trade];
         riskManager := riskManager (fst s1) |},
      snd (newDate (snd s1))))
  else (Failure InsufficientFunds, s1).
Proof.
  unfold riskCheckOf, afterRiskCheck, quoted, afterQuote, ledger.
  unfold buy. unfold bind at 1, ask at 1. destruct s as [e w]. cbn [fst snd].
  destruct (getPrice symbol w) as [price w0]. cbn [fst snd].
  rewrite (bind_eq (checkTrade _ _ _ _)).
  destruct (checkTrade "buy" symbol q price (e, w0)) as [rc [e1 w1]].
  cbn [fst snd].
  destruct (allowed rc); cbn [negb]; cbv iota; [|reflexivity].
  rewrite (bind_eq this). unfold this at 1 2. cbn [fst snd].
  destruct (price * q <=? cash (portfolio e1)); [|reflexivity].
  unfold recordTrade, bind, assign, this, ask, ret, withPortfolio, withMemory.
  simpl. destruct (newDate w1) as [ts w2]. reflexivity.
Qed.

End MethodFacts.

(** ** The admission decision *)

Section Admission.

Context {W : Type} `{Environment W}.

(** C10: a check whose action is not ["buy"] (a sell in particular) is
    always allowed, for every symbol, quantity, price and state, and it
    evaluates none of the three limits: the price source is not read and the
    engine, high-water mark included, is left as it was. *)
Theorem non_buy_always_allowed (action symbol : string) (q price : float)
  (s : TradingEngine * W) :
  String.eqb action "buy" = false ->
  allowed (fst (checkTrade action symbol q price s)) = true /\
  snd (checkTrade action symbol q price s) = s.
Proof.
  intros Ha. rewrite checkTrade_other_eq.
  - split; reflexivity.
  - intros ->. discriminate.
Qed.

(** C6: on a buy the limits are evaluated in the order drawdown, position
    size, risk per trade, and the first failure decides: a failed drawdown
    check gives the drawdown reason whatever the other two limits would say
    (they are not evaluated), a failed position-size check after a passed
    drawdown check gives the position-size reason, and when all three pass
    the check is allowed and carries the three metrics. *)
Theorem checkTrade_order (symbol : string) (q price : float)
  (s : TradingEngine * W) :
  let d := drawdownStage s in
  let p := positionStage symbol q price s in
  let risk := riskPerTrade symbol q price s in
  let r := fst (checkTrade "buy" symbol q price s) in
  let s' := snd (checkTrade "buy" symbol q price s) in
  (dd_allowed d = false ->
     allowed r = false /\
     reason r = DrawdownExceedsLimit (currentDrawdown d * 100)
                  (maxPortfolioDrawdown (limitsOf s) * 100) /\
     s' = afterDrawdown s) /\
  (dd_allowed d = true -> ps_allowed p = false ->
     allowed r = false /\
     reason r = PositionSizeExceedsLimit (currentSize p * 100)
                  (maxPositionSize (limitsOf s) * 100) /\
     s' = afterPosition symbol q price s) /\
  (dd_allowed d = true -> ps_allowed p = true ->
   (maxRiskPerTrade (limitsOf s) <? risk) = true ->
     allowed r = false /\
     reason r = RiskPerTradeExceedsLimit (risk * 100)
                  (maxRiskPerTrade (limitsOf s) * 100) /\
     s' = afterRisk symbol q price s) /\
  (dd_allowed d = true -> ps_allowed p = true ->
   (maxRiskPerTrade (limitsOf s) <? risk) = false ->
     allowed r = true /\
     reason r = TradePassesAllRiskChecks /\
     metrics r = Some {| metrics_riskPerTrade := risk * 100;
                         metrics_positionSize := currentSize p * 100;
                         metrics_drawdown := currentDrawdown d * 100 |} /\
     s' = afterRisk symbol q price s).
Proof.
  cbv zeta. rewrite checkTrade_buy_eq. cbv zeta.
  assert (L1 : limitsOf (afterDrawdown s) = limitsOf s)
    by apply checkDrawdown_frame.
  assert (L2 : limitsOf (afterPosition symbol q price s) = limitsOf s).
  { unfold limitsOf, afterPosition.
    destruct (checkPositionSize_frame symbol q price (afterDrawdown s))
      as (_ & _ & _ & E & _).
    rewrite E. exact L1. }
  assert (L3 : limitsOf (afterRisk symbol q price s) = limitsOf s).
  { unfold limitsOf, afterRisk.
    destruct (getPortfolioValue_frame (afterPosition symbol q price s))
      as (_ & _ & _ & E & _).
    rewrite E. exact L2. }
  rewrite L1, L2, L3.
  destruct (dd_allowed (drawdownStage s)); cbn [negb]; cbv iota.
  2: { repeat split; intros; try discriminate; reflexivity. }
  destruct (ps_allowed (positionStage symbol q price s)); cbn [negb]; cbv iota.
  2: { repeat split; intros; try discriminate; reflexivity. }
  destruct (maxRiskPerTrade (limitsOf s) <? riskPerTrade symbol q price s);
    repeat split; intros; try discriminate; reflexivity.
Qed.

End Admission.

(** ** Thresholds *)

Section Thresholds.

Context {W : Type} `{Environment W}.

Lemma limitsOf_afterRisk (symbol : string) (q price : float)
  (s : TradingEngine * W) :
  limitsOf (afterRisk symbol q price s) = limitsOf s.
Proof.
  unfold limitsOf, afterRisk, afterPosition.
  destruct (getPortfolioValue_frame
              (snd (checkPositionSize symbol q price (afterDrawdown s))))
    as (_ & _ & _ & E3 & _).
  destruct (checkPositionSize_frame symbol q price (afterDrawdown s))
    as (_ & _ & _ & E2 & _).
  destruct (checkDrawdown_frame s) as (_ & _ & _ & E1 & _).
  congruence.
Qed.

(** C5: the drawdown and the position-size thresholds are inclusive.
    [checkDrawdown] values the portfolio, ratchets the peak, and allows
    exactly when [(peak - value) / peak <= maxPortfolioDrawdown]: a drawdown
    equal to the limit is allowed, a greater one is denied.
    [checkPositionSize] values the portfolio and allows exactly when the
    prospective holding [(positions[symbol] || 0) + additionalQuantity]
    times the price, divided by that value, is [<= maxPositionSize]: a size
    equal to the limit is allowed. *)
Theorem thresholds_inclusive (symbol : string) (q price : float)
  (s : TradingEngine * W) :
  let v := fst (getPortfolioValue s) in
  let pk := if peak s <? v then v else peak s in
  let held :=
    JS.toNumber (JS.plus (JS.orZero (JS.get (positions (ledger s)) symbol)) q) in
  let d := fst (checkDrawdown s) in
  let p := fst (checkPositionSize symbol q price s) in
  (currentValue d = v /\ peakValue d = pk /\
   currentDrawdown d = (pk - v) / pk /\
   dd_allowed d = ((pk - v) / pk <=? maxPortfolioDrawdown (limitsOf s)) /\
   snd (checkDrawdown s) = snd (getPortfolioValue s)) /\
  (portfolioValue p = v /\ positionValue p = held * price /\
   currentSize p = held * price / v /\
   ps_allowed p = (held * price / v <=? maxPositionSize (limitsOf s)) /\
   snd (checkPositionSize symbol q price s) = snd (getPortfolioValue s)) /\
  (dd_allowed d = (currentDrawdown d <=? maxPortfolioDrawdown (limitsOf s)) /\
   currentDrawdown d = (peakValue d - currentValue d) / peakValue d /\
   ((currentDrawdown d =? maxPortfolioDrawdown (limitsOf s)) = true ->
      dd_allowed d = true) /\
   ((maxPortfolioDrawdown (limitsOf s) <? currentDrawdown d) = true ->
      dd_allowed d = false)) /\
  (ps_allowed p = (currentSize p <=? maxPositionSize (limitsOf s)) /\
   currentSize p = positionValue p / portfolioValue p /\
   ((currentSize p =? maxPositionSize (limitsOf s)) = true ->
      ps_allowed p = true) /\
   ((maxPositionSize (limitsOf s) <? currentSize p) = true ->
      ps_allowed p = false)).
Proof.
  cbv zeta. rewrite checkDrawdown_eq, checkPositionSize_eq. cbv zeta.
  cbn [fst snd dd_allowed currentDrawdown peakValue currentValue
       ps_allowed currentSize positionValue portfolioValue].
  assert (L : limitsOf (snd (getPortfolioValue s)) = limitsOf s)
    by apply getPortfolioValue_frame.
  assert (P : ledger (snd (getPortfolioValue s)) = ledger s)
    by apply getPortfolioValue_frame.
  rewrite L, P, getPortfolioValue_peak.
  split; [repeat split|]. split; [repeat split|].
  split; (split; [reflexivity|split; [reflexivity|split]]).
  - apply leb_of_eqb.
  - apply leb_of_ltb_flip.
  - apply leb_of_eqb.
  - apply leb_of_ltb_flip.
Qed.

(** C1, as the code has it: the risk-per-trade threshold is inclusive too.
    When the drawdown and position-size checks pass, a buy whose
    [riskPerTrade] equals [maxRiskPerTrade] is allowed, one below the limit
    is allowed, and only a [riskPerTrade] strictly above the limit is
    denied. *)
Theorem risk_threshold_inclusive (symbol : string) (q price : float)
  (s : TradingEngine * W) :
  dd_allowed (drawdownStage s) = true ->
  ps_allowed (positionStage symbol q price s) = true ->
  let risk := riskPerTrade symbol q price s in
  let r := fst (checkTrade "buy" symbol q price s) in
  (risk = maxRiskPerTrade (limitsOf s) -> allowed r = true) /\
  ((risk <=? maxRiskPerTrade (limitsOf s)) = true -> allowed r = true) /\
  ((maxRiskPerTrade (limitsOf s) <? risk) = true -> allowed r = false) /\
  allowed r = negb (maxRiskPerTrade (limitsOf s) <? risk).
Proof.
  intros Hd Hp. cbv zeta.
  assert (E : allowed (fst (checkTrade "buy" symbol q price s)) =
              negb (maxRiskPerTrade (limitsOf s) <? riskPerTrade symbol q price s)).
  { rewrite checkTrade_buy_eq. cbv zeta. rewrite Hd, Hp, limitsOf_afterRisk.
    cbn [negb]. cbv iota.
    destruct (maxRiskPerTrade (limitsOf s) <? riskPerTrade symbol q price s);
      reflexivity. }
  rewrite E. repeat split.
  - intros ->. rewrite ltb_irrefl. reflexivity.
  - intros Hle. rewrite (ltb_of_leb _ _ Hle). reflexivity.
  - intros ->. reflexivity.
Qed.

End Thresholds.

(** A buy of 10 at 100 on a fresh engine risks exactly one percent of
    100000; the check allows it. *)
Lemma risk_at_limit_is_allowed :
  riskPerTrade "AAPL" 10 100 (newTradingEngine, steady 0.5)
  = maxRiskPerTrade (limitsOf (newTradingEngine, steady 0.5)) /\
  dd_allowed (drawdownStage (newTradingEngine, steady 0.5)) = true /\
  ps_allowed (positionStage "AAPL" 10 100 (newTradingEngine, steady 0.5)) = true /\
  allowed (fst (checkTrade "buy" "AAPL" 10 100 (newTradingEngine, steady 0.5)))
  = true.
Proof. vm_compute. repeat split; reflexivity. Qed.

Lemma risk_threshold_inclusive_witness :
  allowed (fst (checkTrade "buy" "AAPL" 10 100 (newTradingEngine, steady 0.5)))
  = true.
Proof.
  refine (proj1 (risk_threshold_inclusive "AAPL" 10 100
                   (newTradingEngine, steady 0.5) _ _) _);
    vm_compute; reflexivity.
Defined.

(** The test-suite's sell of 1000 shares against a holding of 1000. *)
Lemma non_buy_always_allowed_witness :
  allowed (fst (checkTrade "sell" "AAPL" 1000 150
                  (mockEngine 100000 [("AAPL"%string, JS.JNum 1000)] 100000,
                   mock150))) = true /\
  snd (checkTrade "sell" "AAPL" 1000 150
         (mockEngine 100000 [("AAPL"%string, JS.JNum 1000)] 100000, mock150))
  = (mockEngine 100000 [("AAPL"%string, JS.JNum 1000)] 100000, mock150).
Proof.
  apply (non_buy_always_allowed "sell" "AAPL" 1000 150
           (mockEngine 100000 [("AAPL"%string, JS.JNum 1000)] 100000, mock150)).
  reflexivity.
Defined.

(** All three limits violated at once: the drawdown reason is the one
    returned.  Position size and risk violated: the position-size reason. *)
Example all_limits_violated :
  exists p l,
    reason (fst (checkTrade "buy" "AAPL" 300 100 (mockEngine 80000 [] 100000, mock150)))
    = DrawdownExceedsLimit p l.
Proof. eexists; eexists. vm_compute. reflexivity. Qed.

Example position_and_risk_violated :
  exists p l,
    reason (fst (checkTrade "buy" "AAPL" 300 100 (mockEngine 100000 [] 100000, mock150)))
    = PositionSizeExceedsLimit p l.
Proof. eexists; eexists. vm_compute. reflexivity. Qed.

(** ** The executor *)

Section Executor.

Context {W : Type} `{Environment W}.

Lemma afterRiskCheck_frame (symbol : string) (q : float) (s : TradingEngine * W) :
  sameButPeak (fst s) (fst (afterRiskCheck symbol q s)).
Proof.
  unfold afterRiskCheck.
  exact (checkTrade_frame "buy" symbol q (quoted symbol s) (afterQuote symbol s)).
Qed.

Lemma afterRiskCheck_ledger (symbol : string) (q : float) (s : TradingEngine * W) :
  ledger (afterRiskCheck symbol q s) = ledger s.
Proof. apply afterRiskCheck_frame. Qed.

(** C3: a buy the executor denies, on the risk check or on the funds check,
    returns [{success: false, reason}] and leaves the ledger as it was: the
    same cash, the same positions, the same history (hence its length); the
    engine's trade memory is unchanged as well. *)
Theorem denied_buy_leaves_ledger (symbol : string) (q : float)
  (s : TradingEngine * W) :
  success (fst (buy symbol q s)) = false ->
  (exists why, fst (buy symbol q s) = Failure why) /\
  cash (ledger (snd (buy symbol q s))) = cash (ledger s) /\
  positions (ledger (snd (buy symbol q s))) = positions (ledger s) /\
  history (ledger (snd (buy symbol q s))) = history (ledger s) /\
  List.length (history (ledger (snd (buy symbol q s))))
  = List.length (history (ledger s)) /\
  memory (fst (snd (buy symbol q s))) = memory (fst s).
Proof.
  rewrite buy_eq. cbv zeta.
  pose proof (afterRiskCheck_frame symbol q s) as (Ep & _ & Em & _).
  unfold ledger.
  destruct (negb (allowed (riskCheckOf symbol q s))).
  - intros _. cbn [fst snd]. rewrite Ep, Em. repeat split. eauto.
  - destruct (_ <=? _).
    + discriminate.
    + intros _. cbn [fst snd]. rewrite Ep, Em. repeat split. eauto.
Qed.

End Executor.

(** Scenario D: a buy of 6 at 150 succeeds, the following buy of 1000 is
    denied. *)
Lemma denied_buy_leaves_ledger_witness :
  cash (ledger (snd (buy "AAPL" 1000 (snd (buy "AAPL" 6 (newTradingEngine, mock150))))))
  = cash (ledger (snd (buy "AAPL" 6 (newTradingEngine, mock150)))).
Proof.
  refine (proj1 (proj2 (denied_buy_leaves_ledger "AAPL" 1000
            (snd (buy "AAPL" 6 (newTradingEngine, mock150))) _))).
  vm_compute. reflexivity.
Defined.

(** ** NaN never passes the drawdown check *)

Section NotANumber.

Context {W : Type} `{Environment W}.

Lemma is_nan_false_of (x : float) :
  (is_nan x = true -> False) -> is_nan x = false.
Proof. destruct (is_nan x); [intros F; destruct F; reflexivity|reflexivity]. Qed.

Lemma addPositions_nan_total (es : list (string * JS.value)) (t : float)
  (s : TradingEngine * W) :
  is_nan t = true -> is_nan (fst (addPositions es t s)) = true.
Proof.
  revert t s. induction es as [|[symbol quantity] rest IH]; intros t s Ht.
  - exact Ht.
  - simpl. rewrite (bind_eq (ask _)). apply IH. apply add_nan_l, Ht.
Qed.

Lemma addPositions_nan_entry (es : list (string * JS.value)) (t : float)
  (s : TradingEngine * W) (k : string) (v : JS.value) :
  In (k, v) es -> is_nan (JS.toNumber v) = true ->
  is_nan (fst (addPositions es t s)) = true.
Proof.
  revert t s. induction es as [|[symbol quantity] rest IH]; intros t s Hin Hv.
  - destruct Hin.
  - simpl. rewrite (bind_eq (ask _)). destruct Hin as [E|Hin].
    + inversion E; subst. apply addPositions_nan_total, add_nan_r, mul_nan_r, Hv.
    + apply IH; assumption.
Qed.

Lemma getPortfolioValue_value (s : TradingEngine * W) :
  fst (getPortfolioValue s) =
  fst (addPositions (JS.entries (positions (ledger s))) (cash (ledger s)) s).
Proof. destruct s as [e w]. rewrite getPortfolioValue_eq. reflexivity. Qed.

Lemma drawdown_pass_value (s : TradingEngine * W) :
  dd_allowed (drawdownStage s) = true ->
  is_nan (fst (getPortfolioValue s)) = false.
Proof.
  unfold drawdownStage. rewrite checkDrawdown_eq. cbv zeta. cbn [fst dd_allowed].
  intros Hle. apply leb_not_nan in Hle. destruct Hle as [Hd _].
  apply is_nan_false_of. intros Hv.
  rewrite div_nan_l in Hd; [discriminate|]. apply sub_nan_r, Hv.
Qed.

Lemma drawdown_pass_cash (s : TradingEngine * W) :
  dd_allowed (drawdownStage s) = true -> is_nan (cash (ledger s)) = false.
Proof.
  intros Hd. apply drawdown_pass_value in Hd.
  rewrite getPortfolioValue_value in Hd.
  apply is_nan_false_of. intros Hc.
  rewrite addPositions_nan_total in Hd; [discriminate|exact Hc].
Qed.

Lemma drawdown_pass_entry (s : TradingEngine * W) (k : string) (v : JS.value) :
  dd_allowed (drawdownStage s) = true ->
  In (k, v) (JS.entries (positions (ledger s))) ->
  is_nan (JS.toNumber v) = false.
Proof.
  intros Hd Hin. apply drawdown_pass_value in Hd.
  rewrite getPortfolioValue_value in Hd.
  apply is_nan_false_of. intros Hv.
  rewrite (addPositions_nan_entry _ _ _ k v Hin Hv) in Hd. discriminate.
Qed.

Lemma allowed_buy_stages (symbol : string) (q price : float)
  (s : TradingEngine * W) :
  allowed (fst (checkTrade "buy" symbol q price s)) = true ->
  dd_allowed (drawdownStage s) = true /\
  ps_allowed (positionStage symbol q price s) = true /\
  (maxRiskPerTrade (limitsOf s) <? riskPerTrade symbol q price s) = false.
Proof.
  rewrite checkTrade_buy_eq. cbv zeta. rewrite limitsOf_afterRisk.
  destruct (dd_allowed (drawdownStage s)); cbn [negb]; cbv iota;
    [|discriminate].
  destruct (ps_allowed (positionStage symbol q price s)); cbn [negb]; cbv iota;
    [|discriminate].
  destruct (_ <? _); [discriminate|]. intros _. repeat split.
Qed.

End NotANumber.

(** ** Risk check first, funds check second *)

Section Funds.

Context {W : Type} `{Environment W}.


End Funds.

(** Both checks would fail: 100 shares at 150 against 100 of cash.  The
    reason returned is the limiter's. *)
Example risk_reason_wins :
  exists p l,
    fst (buy "EXPENSIVE" 100 (mockEngine 100 [] 100000, mock150))
    = Failure (DrawdownExceedsLimit p l) /\
    (mock_price mock150 * 100 <=? 100) = false.
Proof. eexists; eexists. vm_compute. split; reflexivity. Qed.

(** The risk check passes and the cash is short: 100 of cash beside 1000
    shares worth 150 each. *)
Example insufficient_funds :
  fst (buy "AAPL" 1
         (mockEngine 100 [("MSFT"%string, JS.JNum 1000)] 150100, mock150))
  = Failure InsufficientFunds.
Proof. vm_compute. reflexivity. Qed.

(** ** The high-water mark *)

Section HighWaterMark.

Context {W : Type} `{Environment W}.

Lemma noLower_refl (p : float) : noLower p p.
Proof. left. reflexivity. Qed.

Lemma noLower_trans (p1 p2 p3 : float) :
  noLower p1 p2 -> noLower p2 p3 -> noLower p1 p3.
Proof.
  intros [->|H12] [->|H23].
  - left. reflexivity.
  - right. exact H23.
  - right. exact H12.
  - right. exact (leb_trans _ _ _ H12 H23).
Qed.

Lemma noLower_ltb (p p' : float) : noLower p p' -> (p' <? p) = false.
Proof.
  intros [->|Hle].
  - apply ltb_irrefl.
  - apply ltb_of_leb, Hle.
Qed.

Lemma noLower_leb (p p' : float) :
  noLower p p' -> is_nan p || (p <=? p') = true.
Proof.
  intros [->|Hle].
  - destruct (is_nan p) eqn:Hn; [reflexivity|]. apply leb_refl, Hn.
  - rewrite Hle. apply orb_true_r.
Qed.

Lemma getPortfolioValue_noLower (s : TradingEngine * W) :
  noLower (peak s) (peak (snd (getPortfolioValue s))).
Proof.
  rewrite getPortfolioValue_peak.
  destruct (peak s <? fst (getPortfolioValue s)) eqn:Hlt.
  - right. apply leb_of_ltb, Hlt.
  - apply noLower_refl.
Qed.

Lemma checkDrawdown_noLower (s : TradingEngine * W) :
  noLower (peak s) (peak (afterDrawdown s)).
Proof.
  unfold afterDrawdown. rewrite checkDrawdown_eq. apply getPortfolioValue_noLower.
Qed.

Lemma checkPositionSize_noLower (symbol : string) (q price : float)
  (s : TradingEngine * W) :
  noLower (peak s) (peak (snd (checkPositionSize symbol q price s))).
Proof. rewrite checkPositionSize_eq. apply getPortfolioValue_noLower. Qed.

Lemma checkTrade_noLower (action symbol : string) (q price : float)
  (s : TradingEngine * W) :
  noLower (peak s) (peak (snd (checkTrade action symbol q price s))).
Proof.
  destruct (String.eqb_spec action "buy") as [->|E].
  - rewrite checkTrade_buy_eq. cbv zeta.
    assert (A1 : noLower (peak s) (peak (afterDrawdown s)))
      by apply checkDrawdown_noLower.
    assert (A2 : noLower (peak s) (peak (afterPosition symbol q price s))).
    { eapply noLower_trans; [exact A1|]. apply checkPositionSize_noLower. }
    assert (A3 : noLower (peak s) (peak (afterRisk symbol q price s))).
    { eapply noLower_trans; [exact A2|]. apply getPortfolioValue_noLower. }
    destruct (negb (dd_allowed _)); [exact A1|].
    destruct (negb (ps_allowed _)); [exact A2|].
    destruct (_ <? _); exact A3.
  - rewrite checkTrade_other_eq by assumption. apply noLower_refl.
Qed.

Lemma buy_noLower (symbol : string) (q : float) (s : TradingEngine * W) :
  noLower (peak s) (peak (snd (buy symbol q s))).
Proof.
  assert (A : noLower (peak s) (peak (afterRiskCheck symbol q s))).
  { unfold afterRiskCheck.
    exact (checkTrade_noLower "buy" symbol q (quoted symbol s) (afterQuote symbol s)). }
  rewrite buy_eq. cbv zeta.
  destruct (negb (allowed _)); [exact A|].
  destruct (_ <=? _); exact A.
Qed.

Lemma call_noLower (c : Call) (s : TradingEngine * W) :
  noLower (peak s) (peak (call c s)).
Proof.
  destruct c; simpl.
  - apply getPortfolioValue_noLower.
  - apply checkDrawdown_noLower.
  - apply checkPositionSize_noLower.
  - apply checkTrade_noLower.
  - apply buy_noLower.
Qed.

Lemma calls_noLower (cs : list Call) (s : TradingEngine * W) :
  noLower (peak s) (peak (calls cs s)).
Proof.
  revert s. induction cs as [|c cs IH]; intros s.
  - apply noLower_refl.
  - simpl. eapply noLower_trans; [apply call_noLower|apply IH].
Qed.

(** C4: [peakPortfolioValue] never decreases.  A call of
    [getPortfolioValue] replaces it by the value just computed exactly when
    that value exceeds it, and leaves it alone otherwise; over any sequence
    of calls of [getPortfolioValue] and of the other methods ([checkDrawdown],
    [checkPositionSize], [checkTrade], [buy]), whatever prices the price
    source returns, the final mark is not below the initial one. *)
Theorem peak_never_decreases :
  (forall s : TradingEngine * W,
     peak (snd (getPortfolioValue s)) =
     if peak s <? fst (getPortfolioValue s)
     then fst (getPortfolioValue s) else peak s) /\
  (forall (cs : list Call) (s : TradingEngine * W),
     (peak (calls cs s) <? peak s) = false /\
     is_nan (peak s) || (peak s <=? peak (calls cs s)) = true) /\
  (forall (n : nat) (s : TradingEngine * W),
     (peak (calls (repeat CallGetPortfolioValue n) s) <? peak s) = false /\
     is_nan (peak s)
     || (peak s <=? peak (calls (repeat CallGetPortfolioValue n) s)) = true).
Proof.
  split; [exact getPortfolioValue_peak|]. split.
  - intros cs s. split.
    + apply noLower_ltb, calls_noLower.
    + apply noLower_leb, calls_noLower.
  - intros n s. split.
    + apply noLower_ltb, calls_noLower.
    + apply noLower_leb, calls_noLower.
Qed.

End HighWaterMark.

(** The mark follows the prices up and stays when they fall: 100 shares
    valued at 155, then at 150. *)
Example peak_ratchet :
  let up := {| random := fun n => match n with O => 0.5 | _ => 0 end;
               drawn := 0; clock := 0 |} in
  let s0 := (mockEngine 0 [("AAPL"%string, JS.JNum 100)] 15000, up) in
  peak (calls [CallGetPortfolioValue] s0) = 15500 /\
  peak (calls [CallGetPortfolioValue; CallGetPortfolioValue] s0) = 15500 /\
  fst (getPortfolioValue (calls [CallGetPortfolioValue] s0)) = 15000.
Proof. vm_compute. repeat split; reflexivity. Qed.

(** ** A portfolio worth nothing *)

Section ZeroValue.

Context {W : Type} `{Environment W}.





End ZeroValue.


(** A zero divisor met first at the position-size stage: the valuations
    are 50000, then 0 when the price of the short position rises to 155.  The
    position size of one share of Y is 150 / 0 = +Infinity. *)
Example zero_at_position_stage :
  let w := {| random := fun n => match n with 2%nat => 0.5 | _ => 0 end;
              drawn := 0; clock := 0 |} in
  let s := (mockEngine 1550000 [("X"%string, JS.JNum (-10000));
                                ("Y"%string, JS.JNum 0)] 25000, w) in
  fst (getPortfolioValue s) = 50000 /\
  portfolioValue (positionStage "Y" 1 150 s) = 0 /\
  allowed (fst (checkTrade "buy" "Y" 1 150 s)) = false.
Proof. vm_compute. repeat split; reflexivity. Qed.


(** Nothing at all, not even a peak: the drawdown ratio is NaN. *)
Example zero_peak_denied :
  allowed (fst (checkTrade "buy" "AAPL" 1 150 (mockEngine 0 [] 0, mock150)))
  = false.
Proof. vm_compute. reflexivity. Qed.

(** ** The [positions] object *)

Lemma getOwn_setOwn (o : JS.object) (k : string) (v : JS.value) :
  JS.getOwn (JS.setOwn o k v) k = Some v.
Proof.
  induction o as [|[k' v'] rest IH]; simpl.
  - rewrite String.eqb_refl. reflexivity.
  - destruct (String.eqb k k') eqn:E; simpl; rewrite E; [reflexivity|exact IH].
Qed.

Lemma getOwn_setOwn_other (o : JS.object) (k k0 : string) (v : JS.value) :
  k0 <> k -> JS.getOwn (JS.setOwn o k v) k0 = JS.getOwn o k0.
Proof.
  intros Hne. induction o as [|[k' v'] rest IH]; simpl.
  - destruct (String.eqb_spec k0 k); [contradiction|reflexivity].
  - destruct (String.eqb_spec k k') as [->|E]; simpl.
    + destruct (String.eqb_spec k0 k'); [contradiction|reflexivity].
    + destruct (String.eqb k0 k'); [reflexivity|exact IH].
Qed.

Lemma In_insertIndexed (n : N) (e : string * JS.value)
  (l : list (N * (string * JS.value))) (x : N * (string * JS.value)) :
  In x (JS.insertIndexed n e l) <-> x = (n, e) \/ In x l.
Proof.
  induction l as [|[m e'] rest IH]; simpl.
  - intuition congruence.
  - destruct (n <=? m)%N; simpl; [intuition congruence|].
    rewrite IH. intuition congruence.
Qed.

Lemma In_entries (o : JS.object) (x : string * JS.value) :
  In x (JS.entries o) <-> In x o.
Proof.
  unfold JS.entries. rewrite in_app_iff, in_map_iff.
  induction o as [|[k v] rest IH]; simpl.
  - split; [intros [(y & _ & [])|[]]|intros []].
  - destruct (JS.arrayIndex k) as [n|] eqn:E; simpl.
    + rewrite <- IH. split.
      * intros [(y & Hy & Hin)|Hn]; [|auto].
        apply In_insertIndexed in Hin. destruct Hin as [->|Hin].
        -- left. exact Hy.
        -- right. left. exists y. split; assumption.
      * intros [Hx|[(y & Hy & Hin)|Hn]]; [| |auto].
        -- left. exists (n, (k, v)). split; [exact Hx|].
           apply In_insertIndexed. left. reflexivity.
        -- left. exists y. split; [exact Hy|].
           apply In_insertIndexed. right. exact Hin.
    + rewrite <- IH. tauto.
Qed.

Lemma getOwn_In (o : JS.object) (k : string) (v : JS.value) :
  JS.getOwn o k = Some v -> In (k, v) o.
Proof.
  induction o as [|[k' v'] rest IH]; simpl; [discriminate|].
  destruct (String.eqb_spec k k') as [->|E].
  - intros E. inversion E. left. reflexivity.
  - intros Hg. right. apply IH, Hg.
Qed.

(** What [buy] writes for a symbol, when the position-size check saw a
    number there. *)
Lemma written_quantity (o : JS.object) (k : string) (q : float) :
  is_nan (JS.toNumber (JS.plus (JS.orZero (JS.get o k)) q)) = false ->
  (forall f, JS.getOwn o k = Some (JS.JNum f) -> is_nan f = false) ->
  exists n,
    JS.plus (JS.orZero (JS.get o k)) q = JS.JNum n /\
    JS.getOwn (JS.set o k (JS.JNum n)) k = Some (JS.JNum n) /\
    (n =? quantityOf o k + q) = true.
Proof.
  unfold JS.get, JS.set, quantityOf.
  destruct (JS.getOwn o k) as [[f|]|] eqn:Hown; simpl.
  - intros Hn Hf. specialize (Hf f eq_refl). unfold JS.truthy.
    destruct (is_zero f) eqn:Hz; simpl.
    + simpl in Hn. unfold JS.truthy in Hn. rewrite Hz in Hn. simpl in Hn.
      exists (0 + q). split; [reflexivity|]. split; [apply getOwn_setOwn|].
      apply add_zero_eqb; assumption.
    + rewrite Hf. simpl. unfold JS.truthy in Hn. rewrite Hz, Hf in Hn. simpl in Hn.
      exists (f + q). split; [reflexivity|]. split; [apply getOwn_setOwn|].
      apply eqb_refl, Hn.
  - intros Hn. vm_compute in Hn. discriminate.
  - destruct (JS.inherited k) eqn:Hi; simpl.
    + intros Hn. vm_compute in Hn. discriminate.
    + intros Hn _. exists (0 + q). split; [reflexivity|]. split.
      * destruct (String.eqb_spec k "__proto__") as [->|E].
        -- vm_compute in Hi. discriminate.
        -- apply getOwn_setOwn.
      * apply eqb_refl, Hn.
Qed.

(** ** Conservation *)

Section Conservation.

Context {W : Type} `{Environment W}.

Lemma afterPosition_ledger (symbol : string) (q price : float)
  (s : TradingEngine * W) :
  ledger (snd (getPortfolioValue (afterDrawdown s))) = ledger s.
Proof.
  unfold ledger.
  destruct (getPortfolioValue_frame (afterDrawdown s)) as (E2 & _).
  destruct (checkDrawdown_frame s) as (E1 & _).
  congruence.
Qed.

(** A buy that passes the risk check holds only numbers: the quantity
    written for the symbol is a number and so is every quantity the drawdown
    check has summed. *)
Lemma allowed_buy_number (symbol : string) (q price : float)
  (s : TradingEngine * W) :
  allowed (fst (checkTrade "buy" symbol q price s)) = true ->
  is_nan (JS.toNumber
            (JS.plus (JS.orZero (JS.get (positions (ledger s)) symbol)) q)) = false /\
  (forall f, JS.getOwn (positions (ledger s)) symbol = Some (JS.JNum f) ->
             is_nan f = false).
Proof.
  intros Ha. apply allowed_buy_stages in Ha. destruct Ha as (Hd & Hp & _). split.
  - unfold positionStage in Hp. rewrite checkPositionSize_eq in Hp.
    cbv zeta in Hp. cbn [fst ps_allowed] in Hp.
    rewrite (afterPosition_ledger symbol q price s) in Hp.
    apply leb_not_nan in Hp. destruct Hp as [Hn _].
    apply is_nan_false_of. intros Hq.
    rewrite div_nan_l in Hn; [discriminate|]. apply mul_nan_l, Hq.
  - intros f Hf.
    apply (drawdown_pass_entry s symbol (JS.JNum f) Hd).
    apply In_entries, getOwn_In, Hf.
Qed.

(** C2: an accepted buy returns the price it read and the quantity asked;
    the cash afterwards is the cash before minus [price * quantity], as
    JavaScript computes it (the two sides are the same number, not merely
    within 1e-9 of each other); the position of the symbol afterwards is a
    number equal to the quantity held before (zero when the symbol was
    absent) plus the quantity bought.  One trade is appended to the
    history. *)
Theorem accepted_buy_conservation (symbol : string) (q : float)
  (s : TradingEngine * W) :
  success (fst (buy symbol q s)) = true ->
  let price := quoted symbol s in
  let s' := snd (buy symbol q s) in
  fst (buy symbol q s) = Success price q (metrics (riskCheckOf symbol q s)) /\
  cash (ledger s') = cash (ledger s) - price * q /\
  (exists n,
     JS.getOwn (positions (ledger s')) symbol = Some (JS.JNum n) /\
     JS.JNum n = JS.plus (JS.orZero (JS.get (positions (ledger s)) symbol)) q /\
     (n =? quantityOf (positions (ledger s)) symbol + q) = true) /\
  List.length (history (ledger s')) = S (List.length (history (ledger s))).
Proof.
  cbv zeta. rewrite buy_eq. cbv zeta.
  pose proof (afterRiskCheck_ledger symbol q s) as El.
  destruct (allowed (riskCheckOf symbol q s)) eqn:Ha; cbn [negb]; cbv iota;
    [|discriminate].
  destruct (quoted symbol s * q <=? cash (ledger (afterRiskCheck symbol q s)));
    [|discriminate].
  intros _. unfold riskCheckOf in Ha. apply allowed_buy_number in Ha.
  destruct Ha as [Hn Hf].
  unfold ledger in *. cbn [fst snd portfolio cash positions history] in *.
  rewrite !El.
  split; [reflexivity|]. split; [reflexivity|]. split.
  - destruct (written_quantity (positions (portfolio (fst s))) symbol q Hn Hf)
      as (n & E & Hg & Hq).
    exists n. rewrite E. repeat split; assumption.
  - rewrite length_app. simpl. lia.
Qed.

End Conservation.

(** Scenario D: 6 shares at 150 on a fresh ledger. *)
Lemma accepted_buy_conservation_witness :
  cash (ledger (snd (buy "AAPL" 6 (newTradingEngine, mock150))))
  = cash (ledger (newTradingEngine, mock150))
    - quoted "AAPL" (newTradingEngine, mock150) * 6.
Proof.
  refine (proj1 (proj2 (accepted_buy_conservation "AAPL" 6
                          (newTradingEngine, mock150) _))).
  vm_compute. reflexivity.
Defined.

(** ** Quantities that are not positive *)

(** C9 asks that a buy of a non-positive quantity be refused without a
    trace.  The integration tests call [engine.buy('TEST', -5)] an invalid
    operation that the engine should reject or ignore; the engine executes
    it.  At a price of 155 the call succeeds, credits 775 to the cash,
    records a position of -5 and appends a trade; a quantity of zero
    succeeds too and leaves a trade in the history. *)
Theorem negative_quantity_buy_executes :
  fst (buy "TEST" (-5) (newTradingEngine, steady 0.5))
  = Success 155 (-5) (Some {| metrics_riskPerTrade := -0.775;
                              metrics_positionSize := -0.775;
                              metrics_drawdown := 0 |}) /\
  cash (ledger (snd (buy "TEST" (-5) (newTradingEngine, steady 0.5)))) = 100775 /\
  positions (ledger (snd (buy "TEST" (-5) (newTradingEngine, steady 0.5))))
  = [("TEST"%string, JS.JNum (-5))] /\
  List.length (history (ledger (snd (buy "TEST" (-5) (newTradingEngine, steady 0.5)))))
  = 1%nat /\
  success (fst (buy "TEST" 0 (newTradingEngine, steady 0.5))) = true /\
  List.length (history (ledger (snd (buy "TEST" 0 (newTradingEngine, steady 0.5)))))
  = 1%nat.
Proof. vm_compute. repeat split; reflexivity. Qed.

(** * Further properties of the engine and its readers *)

(** ** What the calls write *)

Section Writes.

Context {W : Type} `{Environment W}.

Lemma call_frame (c : Call) (s : TradingEngine * W) :
  isBuy c = false -> sameButPeak (fst s) (fst (call c s)).
Proof.
  destruct c; simpl; intros Hc; try discriminate.
  - apply getPortfolioValue_frame.
  - apply checkDrawdown_frame.
  - apply checkPositionSize_frame.
  - apply checkTrade_frame.
Qed.

(** X1: the risk manager's methods only observe the ledger.  Over any
    sequence of calls of [getPortfolioValue], [checkDrawdown],
    [checkPositionSize] and [checkTrade] (no [buy] among them) the portfolio,
    the trade memory, the mode, the limits and the initial capital are what
    they were; the high-water mark is the one field that can move. *)
Theorem checks_only_observe (cs : list Call) (s : TradingEngine * W) :
  forallb (fun c => negb (isBuy c)) cs = true ->
  portfolio (fst (calls cs s)) = portfolio (fst s) /\
  memory (fst (calls cs s)) = memory (fst s) /\
  mode (fst (calls cs s)) = mode (fst s) /\
  limits (riskManager (fst (calls cs s))) = limits (riskManager (fst s)) /\
  initialCapital (riskManager (fst (calls cs s))) = initialCapital (riskManager (fst s)).
Proof.
  intros Hcs.
  assert (Hf : sameButPeak (fst s) (fst (calls cs s))).
  { revert s. induction cs as [|c cs IH]; intros s.
    - apply sameButPeak_refl.
    - simpl in Hcs. apply andb_true_iff in Hcs. destruct Hcs as [Hc Hcs].
      simpl. eapply sameButPeak_trans.
      + apply call_frame. apply negb_true_iff, Hc.
      + apply IH, Hcs. }
  destruct Hf as (A1 & A2 & A3 & A4 & A5). repeat split; assumption.
Qed.

Lemma extends_of_frame (s s' : TradingEngine * W) :
  sameButPeak (fst s) (fst s') -> extends s s' [].
Proof.
  intros (A1 & A2 & A3 & A4 & A5). unfold extends, ledger.
  rewrite A1, A3, !app_nil_r. repeat split; try assumption. constructor.
Qed.

Lemma extends_trans (s1 s2 s3 : TradingEngine * W) (x y : list Trade) :
  extends s1 s2 x -> extends s2 s3 y -> extends s1 s3 (x ++ y).
Proof.
  intros (A1 & A2 & A3 & A4 & A5 & A6 & A7) (B1 & B2 & B3 & B4 & B5 & B6 & B7).
  unfold extends. rewrite B1, A1, B2, A2, B3, A3, !app_assoc.
  repeat split; try congruence.
  - unfold replay. rewrite fold_left_app. reflexivity.
  - apply Forall_app. split; assumption.
Qed.

Lemma buy_extends (symbol : string) (q : float) (s : TradingEngine * W) :
  exists extra, extends s (snd (buy symbol q s)) extra /\
    (success (fst (buy symbol q s)) = false -> extra = []) /\
    (success (fst (buy symbol q s)) = true ->
     exists ts, extra = [{| trade_action := "buy";
                            trade_symbol := symbol;
                            trade_quantity := q;
                            trade_price := quoted symbol s;
                            trade_timestamp := ts |}]).
Proof.
  pose proof (afterRiskCheck_frame symbol q s) as Hf.
  pose proof (extends_of_frame s (afterRiskCheck symbol q s) Hf) as He.
  rewrite buy_eq. cbv zeta.
  destruct (negb (allowed (riskCheckOf symbol q s))).
  - exists []. cbn [fst snd success].
    split; [exact He|split; [reflexivity|discriminate]].
  - destruct (_ <=? _).
    + destruct Hf as (A1 & A2 & A3 & A4 & A5).
      eexists. cbn [fst snd success]. split; [|split; [discriminate|]].
      * unfold extends, ledger. cbn [fst snd portfolio cash positions history memory
                                      riskManager mode].
        rewrite A1, A3. repeat split; try assumption.
        repeat constructor.
      * intros _. eexists. reflexivity.
    + exists []. cbn [fst snd success].
      split; [exact He|split; [reflexivity|discriminate]].
Qed.

Lemma call_extends (c : Call) (s : TradingEngine * W) :
  exists extra, extends s (call c s) extra.
Proof.
  destruct (isBuy c) eqn:Hc.
  - destruct c; try discriminate. simpl.
    destruct (buy_extends symbol quantity s) as (extra & He & _).
    exists extra. exact He.
  - exists []. apply extends_of_frame, call_frame, Hc.
Qed.

Lemma calls_extends (cs : list Call) (s : TradingEngine * W) :
  exists extra, extends s (calls cs s) extra.
Proof.
  revert s. induction cs as [|c cs IH]; intros s.
  - exists []. apply extends_of_frame, sameButPeak_refl.
  - simpl. destruct (call_extends c s) as (x & Hx).
    destruct (IH (call c s)) as (y & Hy).
    exists (x ++ y). eapply extends_trans; eassumption.
Qed.

(** X2: the trade log is append-only and the ledger follows it.  After any
    sequence of calls the history is the old history followed by the trades
    executed since, the engine's memory has grown by the same trades, every
    one of them is a buy, and the cash and the positions are what replaying
    those trades on the old cash and positions gives. *)
Theorem ledger_follows_log (cs : list Call) (s : TradingEngine * W) :
  exists extra,
    history (ledger (calls cs s)) = history (ledger s) ++ extra /\
    memory (fst (calls cs s)) = memory (fst s) ++ extra /\
    (cash (ledger (calls cs s)), positions (ledger (calls cs s)))
    = replay (cash (ledger s), positions (ledger s)) extra /\
    Forall (fun t => trade_action t = "buy"%string) extra.
Proof.
  destruct (calls_extends cs s) as (extra & A1 & A2 & A3 & A4 & _).
  exists extra. repeat split; assumption.
Qed.

(** X3: on an engine driven from its constructor the ledger is determined by
    the log: the memory equals the history, and cash and positions are the
    replay of the history from 100000 and no position. *)
Theorem fresh_ledger_is_replay (cs : list Call) (w : W) :
  let s := calls cs (newTradingEngine, w) in
  memory (fst s) = history (ledger s) /\
  (cash (ledger s), positions (ledger s)) = replay (100000, []) (history (ledger s)).
Proof.
  cbv zeta. destruct (calls_extends cs (newTradingEngine, w))
    as (extra & A1 & A2 & A3 & _).
  rewrite A1, A2, A3. split; reflexivity.
Qed.

(** X4: the configuration is fixed at construction.  No sequence of calls,
    [buy] included, changes the three limits, the initial capital or the
    mode. *)
Theorem configuration_is_fixed (cs : list Call) (s : TradingEngine * W) :
  limits (riskManager (fst (calls cs s))) = limits (riskManager (fst s)) /\
  initialCapital (riskManager (fst (calls cs s))) = initialCapital (riskManager (fst s)) /\
  mode (fst (calls cs s)) = mode (fst s).
Proof.
  destruct (calls_extends cs s) as (extra & _ & _ & _ & _ & A5 & A6 & A7).
  repeat split; assumption.
Qed.

End Writes.

Lemma checks_only_observe_witness :
  portfolio (fst (calls [CallCheckTrade "buy" "AAPL" 100 150; CallCheckDrawdown;
                         CallGetPortfolioValue; CallCheckPositionSize "AAPL" 1 150]
                        (mockEngine 90000 [("AAPL"%string, JS.JNum 100)] 100000,
                         mock150)))
  = portfolio (mockEngine 90000 [("AAPL"%string, JS.JNum 100)] 100000).
Proof.
  refine (proj1 (checks_only_observe
            [CallCheckTrade "buy" "AAPL" 100 150; CallCheckDrawdown;
             CallGetPortfolioValue; CallCheckPositionSize "AAPL" 1 150]
            (mockEngine 90000 [("AAPL"%string, JS.JNum 100)] 100000, mock150) _)).
  reflexivity.
Defined.

(** ** Only numbers in the ledger *)

Lemma In_setOwn (o : JS.object) (k : string) (v : JS.value)
  (k0 : string) (v0 : JS.value) :
  In (k0, v0) (JS.setOwn o k v) -> In (k0, v0) o \/ v0 = v.
Proof.
  induction o as [|[k' v'] rest IH]; simpl.
  - intros [E|[]]. inversion E. right. reflexivity.
  - destruct (String.eqb k k'); simpl.
    + intros [E|Hin]; [inversion E; right; reflexivity|left; right; exact Hin].
    + intros [E|Hin]; [left; left; exact E|].
      destruct (IH Hin) as [Hin'|Hv]; [left; right; exact Hin'|right; exact Hv].
Qed.

Lemma In_set (o : JS.object) (k : string) (v : JS.value)
  (k0 : string) (v0 : JS.value) :
  In (k0, v0) (JS.set o k v) -> In (k0, v0) o \/ v0 = v.
Proof.
  unfold JS.set. destruct (JS.getOwn o k).
  - apply In_setOwn.
  - destruct (String.eqb k "__proto__"); [left; assumption|apply In_setOwn].
Qed.

Lemma getOwn_set_other (o : JS.object) (k k0 : string) (v : JS.value) :
  k0 <> k -> JS.getOwn (JS.set o k v) k0 = JS.getOwn o k0.
Proof.
  intros Hne. unfold JS.set. destruct (JS.getOwn o k).
  - apply getOwn_setOwn_other, Hne.
  - destruct (String.eqb k "__proto__");
      [reflexivity|apply getOwn_setOwn_other, Hne].
Qed.

Section Numbers.

Context {W : Type} `{Environment W}.

(** A buy that passes the risk check was priced with a number. *)
Lemma allowed_buy_price (symbol : string) (q price : float)
  (s : TradingEngine * W) :
  allowed (fst (checkTrade "buy" symbol q price s)) = true ->
  is_nan price = false.
Proof.
  intros Ha. apply allowed_buy_stages in Ha. destruct Ha as (_ & Hp & _).
  unfold positionStage in Hp. rewrite checkPositionSize_eq in Hp.
  cbv zeta in Hp. cbn [fst ps_allowed] in Hp.
  apply leb_not_nan in Hp. destruct Hp as [Hn _].
  apply is_nan_false_of. intros Hq.
  rewrite div_nan_l in Hn; [discriminate|]. apply mul_nan_r, Hq.
Qed.

Lemma buy_numeric (symbol : string) (q : float) (s : TradingEngine * W) :
  numeric (positions (ledger s)) ->
  numeric (positions (ledger (snd (buy symbol q s)))).
Proof.
  intros Hnum. rewrite buy_eq. cbv zeta.
  pose proof (afterRiskCheck_ledger symbol q s) as El.
  destruct (allowed (riskCheckOf symbol q s)) eqn:Ha; cbn [negb]; cbv iota.
  2: { cbn [snd]. rewrite El. exact Hnum. }
  destruct (_ <=? _).
  2: { cbn [snd]. rewrite El. exact Hnum. }
  cbn [snd]. rewrite El. unfold ledger at 1. cbn [fst portfolio positions].
  unfold riskCheckOf in Ha. apply allowed_buy_number in Ha.
  destruct Ha as [Hn Hf].
  change (ledger (afterQuote symbol s)) with (ledger s) in Hn, Hf.
  destruct (written_quantity (positions (ledger s)) symbol q Hn Hf)
    as (n & E & _ & _).
  rewrite E in Hn |- *. intros k v Hin. apply In_set in Hin.
  destruct Hin as [Hin | ->].
  - exact (Hnum k v Hin).
  - exists n. split; [reflexivity|exact Hn].
Qed.

(** X5: the ledger holds only numbers.  The quantity of a buy is a
    JavaScript number here, as the methods document it.  If every quantity
    held is a number that is not NaN, then so is every quantity held after
    any sequence of calls with number quantities, whatever the symbols and
    the prices: a buy that would write NaN, or the string built from an
    inherited member of [Object.prototype], is denied. *)
Theorem positions_stay_numeric (cs : list Call) (s : TradingEngine * W) :
  numeric (positions (ledger s)) ->
  numeric (positions (ledger (calls cs s))).
Proof.
  revert s. induction cs as [|c cs IH]; intros s Hnum; [exact Hnum|].
  simpl. apply IH. destruct (isBuy c) eqn:Hc.
  - destruct c; try discriminate. simpl. apply buy_numeric, Hnum.
  - destruct (call_frame c s Hc) as (E & _). unfold ledger. rewrite E. exact Hnum.
Qed.

(** X6: orders that cannot be valued are denied by the position-size or the
    drawdown check and leave the ledger alone: a quantity that is NaN, a
    price read as NaN, and a symbol that names a member of
    [Object.prototype] (["constructor"], ["toString"], ...) which the ledger
    does not hold as its own property. *)
Theorem unusable_orders_are_denied (symbol : string) (q : float)
  (s : TradingEngine * W) :
  is_nan q = true \/ is_nan (quoted symbol s) = true \/
  (JS.inherited symbol = true /\ JS.getOwn (positions (ledger s)) symbol = None) ->
  allowed (riskCheckOf symbol q s) = false /\
  fst (buy symbol q s) = Failure (reason (riskCheckOf symbol q s)) /\
  ledger (snd (buy symbol q s)) = ledger s.
Proof.
  intros Hbad.
  assert (Ha : allowed (riskCheckOf symbol q s) = false).
  { destruct (allowed (riskCheckOf symbol q s)) eqn:Ha; [|reflexivity].
    unfold riskCheckOf in Ha.
    pose proof (allowed_buy_price _ _ _ _ Ha) as Hp.
    apply allowed_buy_number in Ha. destruct Ha as [Hn _].
    change (ledger (afterQuote symbol s)) with (ledger s) in Hn.
    destruct Hbad as [Hq|[Hq|[Hi Ho]]].
    - destruct (JS.orZero (JS.get (positions (ledger s)) symbol)); simpl in Hn.
      + rewrite add_nan_r in Hn; [discriminate|exact Hq].
      + vm_compute in Hn. discriminate.
    - congruence.
    - unfold JS.get in Hn. rewrite Ho, Hi in Hn. vm_compute in Hn. discriminate. }
  split; [exact Ha|]. rewrite buy_eq. cbv zeta. rewrite Ha. cbn [negb fst snd].
  split; [reflexivity|apply afterRiskCheck_ledger].
Qed.

End Numbers.

Lemma positions_stay_numeric_witness :
  numeric (positions (ledger
    (calls [CallBuy "AAPL" 6; CallBuy "constructor" 1; CallBuy "AAPL" nan]
           (newTradingEngine, mock150)))).
Proof.
  apply (positions_stay_numeric
           [CallBuy "AAPL" 6; CallBuy "constructor" 1; CallBuy "AAPL" nan]
           (newTradingEngine, mock150)).
  intros k v [].
Defined.

Lemma unusable_orders_are_denied_witness :
  allowed (riskCheckOf "constructor" 1 (newTradingEngine, mock150)) = false.
Proof.
  refine (proj1 (unusable_orders_are_denied "constructor" 1
                   (newTradingEngine, mock150) _)).
  right. right. split; reflexivity.
Defined.

(** ** More binary64 facts *)

Lemma finite_of_bounds (p v : float) :
  (p <? v) = true -> (v <? infinity) = true -> is_zero v = false ->
  exists s m e, Prim2SF v = S754_finite s m e.
Proof.
  rewrite !FloatAxioms.ltb_spec. unfold is_zero. rewrite FloatAxioms.eqb_spec.
  unfold SFltb, SFeqb. change (Prim2SF infinity) with (S754_infinity false).
  change (Prim2SF 0) with (S754_zero false).
  destruct (Prim2SF v) as [s|s| |s m e]; simpl.
  - intros _ _ Hz. discriminate.
  - destruct s; [|discriminate].
    destruct (Prim2SF p) as [sp|sp| |sp mp ep]; simpl; try discriminate;
      destruct sp; discriminate.
  - intros _ Hn. destruct (Prim2SF p); discriminate.
  - intros _ _ _. eauto.
Qed.

Lemma sub_self_finite (v : float) (s : bool) (m : positive) (e : Z) :
  Prim2SF v = S754_finite s m e -> Prim2SF (v - v) = S754_zero false.
Proof.
  intros Hv. rewrite sub_spec, Hv. unfold SF64sub, SFsub.
  rewrite Z.min_id. unfold shl_align. rewrite !Z.sub_diag. reflexivity.
Qed.

Lemma leb_zero_any (z l : float) :
  is_zero z = true -> (0 <=? l) = true -> (z <=? l) = true.
Proof.
  unfold is_zero. rewrite FloatAxioms.eqb_spec, !FloatAxioms.leb_spec.
  unfold SFeqb, SFleb. change (Prim2SF 0) with (S754_zero false).
  destruct (Prim2SF z) as [s|s| |s m e]; simpl; try discriminate.
  - intros _. destruct (Prim2SF l); simpl; auto.
  - destruct s; discriminate.
  - destruct s; discriminate.
Qed.

Lemma drawdown_at_high (v : float) :
  (v <? infinity) = true -> is_zero v = false ->
  (exists p, (p <? v) = true) ->
  is_zero ((v - v) / v) = true.
Proof.
  intros Hf Hz [p Hp].
  destruct (finite_of_bounds p v Hp Hf Hz) as (s & m & e & Hv).
  unfold is_zero at 1. rewrite FloatAxioms.eqb_spec, div_spec.
  rewrite (sub_self_finite v s m e Hv), Hv. destruct s; reflexivity.
Qed.

(** ** Valuations *)

Section Valuations.

Context {W : Type} `{Environment W}.

(** X7: a portfolio at a new high passes the drawdown check.  When the value
    just computed is finite, not zero and above the high-water mark,
    [checkDrawdown] reports that value as both peak and current value, a
    drawdown of zero, and allows (the limit being non-negative, as the
    constructor's 0.10 is). *)
Theorem new_high_passes_drawdown (s : TradingEngine * W) :
  (peak s <? fst (getPortfolioValue s)) = true ->
  (fst (getPortfolioValue s) <? infinity) = true ->
  is_zero (fst (getPortfolioValue s)) = false ->
  (0 <=? maxPortfolioDrawdown (limitsOf s)) = true ->
  peakValue (fst (checkDrawdown s)) = fst (getPortfolioValue s) /\
  currentValue (fst (checkDrawdown s)) = fst (getPortfolioValue s) /\
  is_zero (currentDrawdown (fst (checkDrawdown s))) = true /\
  dd_allowed (fst (checkDrawdown s)) = true.
Proof.
  intros Hhigh Hfin Hz Hlim. rewrite checkDrawdown_eq. cbv zeta.
  cbn [fst peakValue currentValue currentDrawdown dd_allowed].
  assert (L : limitsOf (snd (getPortfolioValue s)) = limitsOf s)
    by apply getPortfolioValue_frame.
  rewrite L, getPortfolioValue_peak, Hhigh.
  assert (Hd : is_zero ((fst (getPortfolioValue s) - fst (getPortfolioValue s))
                        / fst (getPortfolioValue s)) = true).
  { apply drawdown_at_high; [exact Hfin|exact Hz|]. exists (peak s). exact Hhigh. }
  repeat split; [exact Hd|]. apply leb_zero_any; assumption.
Qed.

Lemma addPositions_steady (es : list (string * JS.value)) (t : float)
  (e e' : TradingEngine) (w : W) :
  (forall k w0, snd (getPrice k w0) = w0) ->
  snd (addPositions es t (e, w)) = (e, w) /\
  fst (addPositions es t (e', w)) = fst (addPositions es t (e, w)).
Proof.
  intros Hs. revert t. induction es as [|[symbol quantity] rest IH]; intros t.
  - split; reflexivity.
  - simpl. unfold bind, ask. cbn [fst snd].
    pose proof (Hs symbol w) as Hw.
    destruct (getPrice symbol w) as [price w']. cbn [snd] in Hw. subst w'.
    apply IH.
Qed.

Lemma getPortfolioValue_steady (s s' : TradingEngine * W) :
  (forall k w0, snd (getPrice k w0) = w0) ->
  sameButPeak (fst s) (fst s') -> snd s' = snd s ->
  fst (getPortfolioValue s') = fst (getPortfolioValue s) /\
  snd (snd (getPortfolioValue s')) = snd s.
Proof.
  intros Hs (Ep & _) Ew. destruct s as [e w], s' as [e' w']. cbn [fst snd] in *.
  subst w'. rewrite !getPortfolioValue_eq. cbv zeta. cbn [fst snd]. rewrite Ep.
  destruct (addPositions_steady (JS.entries (positions (portfolio e)))
              (cash (portfolio e)) e e' w Hs) as [E1 E2].
  destruct (addPositions_steady (JS.entries (positions (portfolio e)))
              (cash (portfolio e)) e' e w Hs) as [E3 _].
  rewrite E3. cbn [snd]. split; [exact E2|reflexivity].
Qed.

(** X8: when reading a price does not change the price source (prices hold
    still, as with the test-suite's mock), the three stages of [checkTrade]
    are evaluated against one and the same portfolio value: the value the
    drawdown check computed is the denominator of the position size and of
    the risk per trade. *)
Theorem steady_prices_one_valuation (symbol : string) (q price : float)
  (s : TradingEngine * W) :
  (forall k w0, snd (getPrice k w0) = w0) ->
  currentValue (drawdownStage s) = fst (getPortfolioValue s) /\
  portfolioValue (positionStage symbol q price s) = fst (getPortfolioValue s) /\
  riskPerTrade symbol q price s = price * q / fst (getPortfolioValue s) /\
  snd (afterRisk symbol q price s) = snd s.
Proof.
  intros Hs.
  destruct (getPortfolioValue_steady s s Hs (sameButPeak_refl _) eq_refl)
    as [_ W1].
  assert (F1 : sameButPeak (fst s) (fst (afterDrawdown s)))
    by apply checkDrawdown_frame.
  assert (W1' : snd (afterDrawdown s) = snd s).
  { unfold afterDrawdown. rewrite checkDrawdown_eq. exact W1. }
  destruct (getPortfolioValue_steady s (afterDrawdown s) Hs F1 W1') as [V2 W2].
  assert (F2 : sameButPeak (fst s) (fst (afterPosition symbol q price s))).
  { eapply sameButPeak_trans; [exact F1|]. apply checkPositionSize_frame. }
  assert (W2' : snd (afterPosition symbol q price s) = snd s).
  { unfold afterPosition. rewrite checkPositionSize_eq. exact W2. }
  destruct (getPortfolioValue_steady s (afterPosition symbol q price s) Hs F2 W2')
    as [V3 W3].
  unfold drawdownStage, positionStage, riskPerTrade, afterRisk.
  rewrite checkDrawdown_eq, checkPositionSize_eq. cbv zeta.
  cbn [fst currentValue portfolioValue]. rewrite V2, V3.
  repeat split. exact W3.
Qed.

(** X9: a buy, executed or not, leaves the quantity of every other symbol
    as it was. *)
Theorem buy_leaves_other_symbols (symbol k : string) (q : float)
  (s : TradingEngine * W) :
  String.eqb k symbol = false ->
  JS.getOwn (positions (ledger (snd (buy symbol q s)))) k
  = JS.getOwn (positions (ledger s)) k /\
  quantityOf (positions (ledger (snd (buy symbol q s)))) k
  = quantityOf (positions (ledger s)) k.
Proof.
  intros Hk. apply String.eqb_neq in Hk.
  assert (E : JS.getOwn (positions (ledger (snd (buy symbol q s)))) k
              = JS.getOwn (positions (ledger s)) k).
  { rewrite buy_eq. cbv zeta.
    pose proof (afterRiskCheck_ledger symbol q s) as El.
    destruct (negb (allowed (riskCheckOf symbol q s))).
    - cbn [snd]. rewrite El. reflexivity.
    - destruct (_ <=? _); cbn [snd].
      + rewrite El. unfold ledger at 1. cbn [fst portfolio positions].
        apply getOwn_set_other, Hk.
      + rewrite El. reflexivity. }
  split; [exact E|]. unfold quantityOf. rewrite E. reflexivity.
Qed.

End Valuations.

(** The test-suite's gain: a peak of 100000 and 120000 of cash. *)
Lemma new_high_passes_drawdown_witness :
  peakValue (fst (checkDrawdown (mockEngine 120000 [] 100000, mock150)))
  = fst (getPortfolioValue (mockEngine 120000 [] 100000, mock150)).
Proof.
  refine (proj1 (new_high_passes_drawdown (mockEngine 120000 [] 100000, mock150)
                   _ _ _ _));
    vm_compute; reflexivity.
Defined.

Lemma steady_prices_one_valuation_witness :
  currentValue (drawdownStage
    (mockEngine 50000 [("MSFT"%string, JS.JNum 100)] 65000, mock150))
  = fst (getPortfolioValue
    (mockEngine 50000 [("MSFT"%string, JS.JNum 100)] 65000, mock150)).
Proof.
  refine (proj1 (steady_prices_one_valuation "AAPL" 1 150
            (mockEngine 50000 [("MSFT"%string, JS.JNum 100)] 65000, mock150) _)).
  intros k w0. reflexivity.
Defined.

Lemma buy_leaves_other_symbols_witness :
  JS.getOwn (positions (ledger (snd (buy "AAPL" 1
      (mockEngine 50000 [("MSFT"%string, JS.JNum 100)] 65000, mock150))))) "MSFT"
  = JS.getOwn (positions (ledger
      (mockEngine 50000 [("MSFT"%string, JS.JNum 100)] 65000, mock150))) "MSFT".
Proof.
  refine (proj1 (buy_leaves_other_symbols "AAPL" "MSFT" 1
            (mockEngine 50000 [("MSFT"%string, JS.JNum 100)] 65000, mock150) _)).
  reflexivity.
Defined.

(** ** Subtraction below a bound *)

Lemma digits2_pos_bounds (m : positive) :
  (2 ^ (Z.pos (digits2_pos m) - 1) <= Z.pos m < 2 ^ Z.pos (digits2_pos m))%Z.
Proof.
  induction m as [m IH|m IH|]; cbn [digits2_pos].
  - rewrite Pos2Z.inj_succ.
    replace (Z.succ (Z.pos (digits2_pos m)) - 1)%Z with (Z.pos (digits2_pos m)) by lia.
    assert (E : (2 ^ Z.pos (digits2_pos m) = 2 * 2 ^ (Z.pos (digits2_pos m) - 1))%Z).
    { rewrite <- Z.pow_succ_r by lia. f_equal. lia. }
    rewrite Z.pow_succ_r by lia. lia.
  - rewrite Pos2Z.inj_succ.
    replace (Z.succ (Z.pos (digits2_pos m)) - 1)%Z with (Z.pos (digits2_pos m)) by lia.
    assert (E : (2 ^ Z.pos (digits2_pos m) = 2 * 2 ^ (Z.pos (digits2_pos m) - 1))%Z).
    { rewrite <- Z.pow_succ_r by lia. f_equal. lia. }
    rewrite Z.pow_succ_r by lia. lia.
  - simpl. lia.
Qed.

Lemma iter_xO_pow (m d : positive) :
  Z.pos (Pos.iter xO m d) = (Z.pos m * 2 ^ Z.pos d)%Z.
Proof.
  induction d as [|d IH] using Pos.peano_ind.
  - simpl. lia.
  - rewrite Pos.iter_succ, Pos2Z.inj_succ, Z.pow_succ_r by lia.
    rewrite Pos2Z.inj_xO, IH. lia.
Qed.

Lemma shr_1_nonneg (mrs : shr_record) : shr_nonneg mrs -> shr_nonneg (shr_1 mrs).
Proof.
  unfold shr_nonneg. destruct mrs as [m r s]. simpl.
  destruct m as [|p|p]; [simpl; lia| |lia].
  destruct p; simpl; lia.
Qed.

Lemma iter_pos_nonneg (n : positive) (mrs : shr_record) :
  shr_nonneg mrs -> shr_nonneg (SpecFloat.iter_pos shr_1 n mrs).
Proof.
  revert mrs. induction n as [n IH|n IH|]; intros mrs Hm; simpl.
  - apply IH, IH, shr_1_nonneg, Hm.
  - apply IH, IH, Hm.
  - apply shr_1_nonneg, Hm.
Qed.

Lemma shr_fexp_nonneg (m e : Z) (l : location) :
  (0 <= m)%Z -> shr_nonneg (fst (shr_fexp prec emax m e l)).
Proof.
  intros Hm. unfold shr_fexp, shr.
  assert (H0 : shr_nonneg (shr_record_of_loc m l)).
  { unfold shr_nonneg. destruct l as [|[ | | ]]; exact Hm. }
  destruct (fexp prec emax (Zdigits2 m + e) - e)%Z; cbn [fst]; try exact H0.
  apply iter_pos_nonneg, H0.
Qed.

Lemma binary_round_aux_nonneg (m e : Z) (l : location) :
  (0 <= m)%Z -> SFnonneg (binary_round_aux prec emax false m e l).
Proof.
  intros Hm. unfold binary_round_aux.
  pose proof (shr_fexp_nonneg m e l Hm) as H1.
  destruct (shr_fexp prec emax m e l) as [mrs' e']. cbn [fst] in H1.
  assert (H2 : (0 <= round_nearest_even (shr_m mrs') (loc_of_shr_record mrs'))%Z).
  { unfold shr_nonneg in H1. unfold round_nearest_even.
    destruct (loc_of_shr_record mrs') as [|[ | | ]]; try lia.
    destruct (Z.even (shr_m mrs')); lia. }
  pose proof (shr_fexp_nonneg _ e' loc_Exact H2) as H3.
  destruct (shr_fexp prec emax _ e' loc_Exact) as [mrs'' e'']. cbn [fst] in H3.
  unfold shr_nonneg in H3.
  destruct (shr_m mrs'') as [|p|p]; [reflexivity| |lia].
  destruct (e'' <=? emax - prec)%Z; reflexivity.
Qed.

Lemma binary_normalize_nonneg (d e : Z) :
  (0 <= d)%Z -> SFnonneg (binary_normalize prec emax d e false).
Proof.
  intros Hd. unfold binary_normalize. destruct d as [|p|p]; [reflexivity| |lia].
  unfold binary_round. destruct (shl_align _ _ _) as [mz ez].
  apply binary_round_aux_nonneg. lia.
Qed.

Lemma fst_shl_align (m : positive) (e e' : Z) :
  (e' <= e)%Z -> Z.pos (fst (shl_align m e e')) = (Z.pos m * 2 ^ (e - e'))%Z.
Proof.
  intros Hle. unfold shl_align.
  destruct (e' - e)%Z as [|d|d] eqn:E; cbn [fst].
  - replace (e - e')%Z with 0%Z by lia. simpl. lia.
  - lia.
  - rewrite iter_xO_pow. f_equal. f_equal. lia.
Qed.

Lemma canonical_bounds (s : bool) (m : positive) (e : Z) :
  valid_binary (S754_finite s m e) = true ->
  (Z.pos m < 2 ^ 53)%Z /\ ((-1074 < e)%Z -> (2 ^ 52 <= Z.pos m)%Z).
Proof.
  unfold SpecFloat.valid_binary, bounded, canonical_mantissa, fexp, SpecFloat.emin.
  intros Hv. apply andb_true_iff in Hv. destruct Hv as [Hc _].
  apply Z.eqb_eq in Hc. change (3 - emax - prec)%Z with (-1074)%Z in Hc.
  change prec with 53%Z in Hc.
  pose proof (digits2_pos_bounds m) as [Hlo Hhi].
  split.
  - assert (Z.pos (digits2_pos m) <= 53)%Z by lia.
    eapply Z.lt_le_trans; [exact Hhi|]. apply Z.pow_le_mono_r; lia.
  - intros He. assert (Z.pos (digits2_pos m) = 53)%Z by lia.
    replace 52%Z with (Z.pos (digits2_pos m) - 1)%Z by lia. exact Hlo.
Qed.

(** [c - x] is not negative when [x <= c] and [c] is a finite number that
    is not negative. *)
Lemma SFsub_nonneg (c x : spec_float) :
  valid_binary c = true -> valid_binary x = true ->
  SFleb x c = true -> SFnonneg c -> SFltb c (S754_infinity false) = true ->
  SFnonneg (SF64sub c x).
Proof.
  unfold SFnonneg, SFleb, SFltb, SF64sub.
  destruct c as [sc|sc| |[|] mc ec]; try discriminate.
  - (* c is a zero *)
    intros _ _. destruct x as [sx|sx| |[|] mx ex]; simpl; try discriminate.
    + intros _ _ _. destruct sc, sx; reflexivity.
    + destruct sx; [reflexivity|discriminate].
    + reflexivity.
  - (* c is infinite *)
    destruct sc; discriminate.
  - (* c is positive *)
    intros Vc Vx. destruct x as [sx|sx| |[|] mx ex]; try discriminate.
    + intros _ _ _. reflexivity.
    + destruct sx; [reflexivity|discriminate].
    + intros _ _ _. unfold SFsub. apply binary_normalize_nonneg.
      cbn [cond_Zopp]. lia.
    + intros Hle _ _. unfold SFsub. apply binary_normalize_nonneg.
      cbn [cond_Zopp]. simpl in Hle.
      destruct (canonical_bounds _ _ _ Vc) as [_ Hc].
      destruct (canonical_bounds _ _ _ Vx) as [Hx _].
      assert (Hex : (-1074 <= ex)%Z).
      { unfold SpecFloat.valid_binary, bounded, canonical_mantissa, fexp,
          SpecFloat.emin in Vx.
        apply andb_true_iff in Vx. destruct Vx as [Vx _]. apply Z.eqb_eq in Vx.
        change (3 - emax - prec)%Z with (-1074)%Z in Vx. lia. }
      destruct (Z.compare_spec ex ec) as [E|E|E]; try discriminate.
      * subst ec. rewrite Z.min_id, !fst_shl_align by lia.
        rewrite Z.sub_diag. simpl Z.pow.
        change (Pos.compare_cont Eq mx mc) with (Pos.compare mx mc) in Hle.
        destruct (Pos.compare_spec mx mc); try discriminate; lia.
      * rewrite Z.min_r, !fst_shl_align by lia. rewrite Z.sub_diag. simpl (2 ^ 0)%Z.
        specialize (Hc ltac:(lia)).
        assert (2 ^ 1 <= 2 ^ (ec - ex))%Z by (apply Z.pow_le_mono_r; lia).
        nia.
Qed.

Lemma sub_nonneg (c x : float) :
  (x <=? c) = true -> (0 <=? c) = true -> (c <? infinity) = true ->
  (0 <=? c - x) = true.
Proof.
  rewrite !FloatAxioms.leb_spec, FloatAxioms.ltb_spec, sub_spec.
  change (Prim2SF 0) with (S754_zero false).
  change (Prim2SF infinity) with (S754_infinity false).
  intros Hle Hc Hf. apply SFsub_nonneg; try assumption; apply Prim2SF_valid.
Qed.

(** An infinite portfolio value makes the drawdown ratio NaN, whichever
    way the ratchet went. *)
Lemma drawdown_of_infinite_value (p v : float) :
  Prim2SF v = S754_infinity false ->
  is_nan (((if p <? v then v else p) - v) / (if p <? v then v else p)) = true.
Proof.
  intros Hv. rewrite is_nan_spec, div_spec, sub_spec.
  destruct (p <? v) eqn:Hlt.
  - rewrite Hv. reflexivity.
  - rewrite FloatAxioms.ltb_spec in Hlt. unfold SFltb in Hlt. rewrite Hv in *.
    destruct (Prim2SF p) as [s|s| |s m e]; simpl in Hlt; try discriminate.
    + destruct s; [discriminate|reflexivity].
    + reflexivity.
Qed.

Lemma add_infinity (t x : float) :
  Prim2SF t = S754_infinity false ->
  Prim2SF (t + x) = S754_infinity false \/ is_nan (t + x) = true.
Proof.
  intros Ht. rewrite is_nan_spec, add_spec, Ht.
  destruct (Prim2SF x) as [s|s| |s m e]; simpl; auto. destruct s; auto.
Qed.

Lemma infinite_of_bounds (c : float) :
  is_nan c = false -> (0 <=? c) = true -> (c <? infinity) = false ->
  Prim2SF c = S754_infinity false.
Proof.
  rewrite is_nan_false, FloatAxioms.leb_spec, FloatAxioms.ltb_spec.
  unfold SFleb, SFltb. change (Prim2SF 0) with (S754_zero false).
  change (Prim2SF infinity) with (S754_infinity false).
  destruct (Prim2SF c) as [s|s| |s m e]; simpl; try discriminate; try congruence.
  destruct s; [discriminate|reflexivity].
Qed.

(** ** Cash *)

Section Cash.

Context {W : Type} `{Environment W}.

Lemma addPositions_infinity (es : list (string * JS.value)) (t : float)
  (s : TradingEngine * W) :
  Prim2SF t = S754_infinity false ->
  Prim2SF (fst (addPositions es t s)) = S754_infinity false \/
  is_nan (fst (addPositions es t s)) = true.
Proof.
  revert t s. induction es as [|[symbol quantity] rest IH]; intros t s Ht.
  - left. exact Ht.
  - simpl. rewrite (bind_eq (ask _)).
    destruct (add_infinity t (fst (ask (getPrice symbol) s) * JS.toNumber quantity) Ht)
      as [Hi|Hn].
    + apply IH, Hi.
    + right. apply addPositions_nan_total, Hn.
Qed.

(** Cash that is not negative and passes the drawdown check is finite. *)
Lemma drawdown_pass_cash_finite (s : TradingEngine * W) :
  dd_allowed (drawdownStage s) = true ->
  (0 <=? cash (ledger s)) = true ->
  (cash (ledger s) <? infinity) = true.
Proof.
  intros Hd Hc.
  destruct (cash (ledger s) <? infinity) eqn:Hf; [reflexivity|exfalso].
  pose proof (drawdown_pass_cash s Hd) as Hn.
  pose proof (infinite_of_bounds _ Hn Hc Hf) as Hi.
  pose proof (drawdown_pass_value s Hd) as Hv.
  unfold drawdownStage in Hd. rewrite checkDrawdown_eq in Hd. cbv zeta in Hd.
  cbn [fst dd_allowed] in Hd. apply leb_not_nan in Hd. destruct Hd as [Hd _].
  rewrite getPortfolioValue_peak in Hd.
  destruct (addPositions_infinity (JS.entries (positions (ledger s)))
              (cash (ledger s)) s Hi) as [Hinf|Hnan].
  - rewrite <- getPortfolioValue_value in Hinf.
    rewrite (drawdown_of_infinite_value _ _ Hinf) in Hd. discriminate.
  - rewrite <- getPortfolioValue_value in Hnan. congruence.
Qed.

Lemma buy_cash_nonneg (symbol : string) (q : float) (s : TradingEngine * W) :
  (0 <=? cash (ledger s)) = true ->
  (0 <=? cash (ledger (snd (buy symbol q s)))) = true.
Proof.
  intros Hc. rewrite buy_eq. cbv zeta.
  pose proof (afterRiskCheck_ledger symbol q s) as El.
  destruct (allowed (riskCheckOf symbol q s)) eqn:Ha; cbn [negb]; cbv iota.
  2: { cbn [snd]. rewrite El. exact Hc. }
  rewrite El.
  destruct (quoted symbol s * q <=? cash (ledger s)) eqn:Hle.
  2: { cbn [snd]. rewrite El. exact Hc. }
  cbn [snd]. unfold ledger at 1. cbn [fst portfolio cash].
  apply sub_nonneg; [exact Hle|exact Hc|].
  unfold riskCheckOf in Ha. apply allowed_buy_stages in Ha.
  destruct Ha as (Hd & _).
  exact (drawdown_pass_cash_finite (afterQuote symbol s) Hd Hc).
Qed.

(** X10: the executor never overdraws.  Cash that is not negative stays not
    negative over any sequence of calls, whatever the symbols, quantities
    and prices: [buy] debits only a cost that the cash covers. *)
Theorem cash_never_negative (cs : list Call) (s : TradingEngine * W) :
  (0 <=? cash (ledger s)) = true ->
  (0 <=? cash (ledger (calls cs s))) = true.
Proof.
  revert s. induction cs as [|c cs IH]; intros s Hc; [exact Hc|].
  simpl. apply IH. destruct (isBuy c) eqn:Hb.
  - destruct c; try discriminate. simpl. apply buy_cash_nonneg, Hc.
  - destruct (call_frame c s Hb) as (E & _). unfold ledger. rewrite E. exact Hc.
Qed.

End Cash.

Lemma cash_never_negative_witness :
  (0 <=? cash (ledger (calls [CallBuy "AAPL" 6; CallBuy "AAPL" 1000; CallBuy "MSFT" 2]
                             (newTradingEngine, steady 0.5)))) = true.
Proof.
  apply (cash_never_negative [CallBuy "AAPL" 6; CallBuy "AAPL" 1000; CallBuy "MSFT" 2]
           (newTradingEngine, steady 0.5)).
  reflexivity.
Defined.

(** ** The risk report *)

Lemma noLower_above (p1 p2 v : float) :
  (p1 <? v) = false -> noLower p1 p2 -> (p2 <? v) = false.
Proof.
  intros Hv [->|Hle]; [exact Hv|].
  destruct (is_nan v) eqn:Hn.
  - destruct (p2 <? v) eqn:E; [|reflexivity].
    apply ltb_not_nan in E. destruct E as [_ E]. congruence.
  - apply ltb_of_leb. apply leb_trans with (y := p1); [|exact Hle].
    destruct (v <=? p1) eqn:E; [reflexivity|].
    apply leb_not_nan in Hle. destruct Hle as [Hp1 _].
    rewrite (ltb_total p1 v Hp1 Hn E) in Hv. discriminate.
Qed.

Section ReportFacts.

Context {W : Type} `{Environment W}.

Lemma describePositions_engine (es : list (string * JS.value)) (v : float)
  (acc : list (string * PositionDetail)) (e : TradingEngine) (w : W) :
  fst (snd (describePositions es v acc (e, w))) = e.
Proof.
  revert acc w. induction es as [|[symbol quantity] rest IH]; intros acc w.
  - reflexivity.
  - simpl. unfold bind, ask. cbn [fst snd].
    destruct (getPrice symbol w) as [price w']. apply IH.
Qed.

Lemma getRiskMetrics_run (s : TradingEngine * W) :
  let s1 := snd (getPortfolioValue s) in
  let s2 := afterDrawdown s1 in
  exists ps w3,
    getRiskMetrics s =
    ({| rm_portfolioValue := fst (getPortfolioValue s);
        rm_peakValue := peak s2;
        rm_drawdown := currentDrawdown (drawdownStage s1) * 100;
        rm_drawdownAllowed := dd_allowed (drawdownStage s1);
        rm_positions := ps;
        rm_maxRiskPerTrade := maxRiskPerTrade (limitsOf s2) * 100;
        rm_maxDrawdown := maxPortfolioDrawdown (limitsOf s2) * 100;
        rm_maxPositionSize := maxPositionSize (limitsOf s2) * 100 |},
     (fst s2, w3)).
Proof.
  cbv zeta. unfold getRiskMetrics, afterDrawdown, drawdownStage, peak, limitsOf.
  unfold bind at 1. destruct (getPortfolioValue s) as [v s1]. cbn [fst snd].
  unfold bind at 1. destruct (checkDrawdown s1) as [d [e2 w2]]. cbn [fst snd].
  unfold bind at 1, this at 1. cbn [fst snd].
  unfold bind at 1.
  pose proof (describePositions_engine (JS.entries (positions (portfolio e2)))
                v [] e2 w2) as He.
  destruct (describePositions _ _ _ (e2, w2)) as [ps [e3 w3]].
  cbn [fst snd] in He. subst e3.
  exists ps, w3. reflexivity.
Qed.

Lemma getRiskMetrics_eq (s : TradingEngine * W) :
  let s1 := snd (getPortfolioValue s) in
  let s2 := afterDrawdown s1 in
  fst (snd (getRiskMetrics s)) = fst s2 /\
  rm_portfolioValue (fst (getRiskMetrics s)) = fst (getPortfolioValue s) /\
  rm_peakValue (fst (getRiskMetrics s)) = peak s2 /\
  rm_drawdownAllowed (fst (getRiskMetrics s)) = dd_allowed (drawdownStage s1).
Proof.
  cbv zeta. destruct (getRiskMetrics_run s) as (ps & w3 & E). rewrite E.
  repeat split.
Qed.

(** X11: [getRiskMetrics] only observes.  It leaves the portfolio, the trade
    memory and the limits as they were, it can move the high-water mark
    only upwards, and the peak it reports is never below the portfolio
    value it reports. *)
Theorem risk_report_observes (s : TradingEngine * W) :
  portfolio (fst (snd (getRiskMetrics s))) = portfolio (fst s) /\
  memory (fst (snd (getRiskMetrics s))) = memory (fst s) /\
  limits (riskManager (fst (snd (getRiskMetrics s)))) = limits (riskManager (fst s)) /\
  (peak (snd (getRiskMetrics s)) <? peak s) = false /\
  rm_peakValue (fst (getRiskMetrics s)) = peak (snd (getRiskMetrics s)) /\
  (rm_peakValue (fst (getRiskMetrics s)) <? rm_portfolioValue (fst (getRiskMetrics s)))
  = false.
Proof.
  destruct (getRiskMetrics_eq s) as (Ee & Ev & Ep & _).
  assert (F : sameButPeak (fst s) (fst (afterDrawdown (snd (getPortfolioValue s))))).
  { eapply sameButPeak_trans; [apply getPortfolioValue_frame|].
    apply checkDrawdown_frame. }
  assert (N2 : noLower (peak (snd (getPortfolioValue s)))
                       (peak (afterDrawdown (snd (getPortfolioValue s)))))
    by apply checkDrawdown_noLower.
  assert (N : noLower (peak s) (peak (afterDrawdown (snd (getPortfolioValue s))))).
  { eapply noLower_trans; [apply getPortfolioValue_noLower|exact N2]. }
  assert (Epk : peak (snd (getRiskMetrics s))
                = peak (afterDrawdown (snd (getPortfolioValue s)))).
  { unfold peak. rewrite Ee. reflexivity. }
  rewrite Ee, Ev, Ep, Epk. destruct F as (F1 & _ & F3 & F4 & _).
  repeat split; try assumption.
  - apply noLower_ltb, N.
  - apply noLower_above with (p1 := peak (snd (getPortfolioValue s))); [|exact N2].
    rewrite getPortfolioValue_peak.
    destruct (peak s <? fst (getPortfolioValue s)) eqn:E;
      [apply ltb_irrefl|exact E].
Qed.

End ReportFacts.

(** The test-suite's report on an empty portfolio. *)
Example report_of_empty_portfolio :
  let r := fst (getRiskMetrics (mockEngine 95000 [] 120000, mock150)) in
  rm_portfolioValue r = 95000 /\ rm_peakValue r = 120000 /\
  rm_drawdownAllowed r = false /\ rm_positions r = [] /\
  rm_maxRiskPerTrade r = 1 /\ rm_maxDrawdown r = 10 /\ rm_maxPositionSize r = 20.
Proof. vm_compute. repeat split; reflexivity. Qed.

Example report_of_positions :
  map (fun kd => (fst kd, pd_value (snd kd), pd_percentOfPortfolio (snd kd)))
      (rm_positions (fst (getRiskMetrics
         (mockEngine 85000 [("AAPL"%string, JS.JNum 100)] 100000, mock150))))
  = [("AAPL"%string, 15000, 15)].
Proof. vm_compute. reflexivity. Qed.

(** ** Readers of the ledger *)

Section Readers.

Context {W : Type} `{Environment W}.

Lemma accepted_buy_written (symbol : string) (q : float) (s : TradingEngine * W) :
  success (fst (buy symbol q s)) = true ->
  exists n ts,
    JS.getOwn (positions (ledger (snd (buy symbol q s)))) symbol = Some (JS.JNum n) /\
    history (ledger (snd (buy symbol q s)))
    = history (ledger s) ++ [{| trade_action := "buy";
                                trade_symbol := symbol;
                                trade_quantity := q;
                                trade_price := quoted symbol s;
                                trade_timestamp := ts |}].
Proof.
  rewrite buy_eq. cbv zeta.
  pose proof (afterRiskCheck_ledger symbol q s) as El.
  destruct (allowed (riskCheckOf symbol q s)) eqn:Ha; cbn [negb]; cbv iota;
    [|discriminate].
  destruct (_ <=? _); [|discriminate].
  intros _. unfold riskCheckOf in Ha. apply allowed_buy_number in Ha.
  destruct Ha as [Hn Hf].
  change (ledger (afterQuote symbol s)) with (ledger s) in Hn, Hf.
  destruct (written_quantity (positions (ledger s)) symbol q Hn Hf)
    as (n & E & Hg & _).
  exists n. eexists. cbn [snd]. rewrite El. unfold ledger at 1 3.
  cbn [fst portfolio positions history]. rewrite E. split; [exact Hg|reflexivity].
Qed.

(** X12: the planner never proposes a sell, and after an executed buy it
    never falls back to ["analyze"]: with a symbol held it answers ["buy"]
    or ["hold"]. *)
Theorem plan_after_buy (symbol : string) (q : float) (s : TradingEngine * W) :
  (forall e, plan_action (plan e) <> "sell"%string) /\
  (success (fst (buy symbol q s)) = true ->
   plan_action (plan (fst (snd (buy symbol q s)))) = "buy"%string \/
   plan_action (plan (fst (snd (buy symbol q s)))) = "hold"%string).
Proof.
  split.
  - intros e. unfold plan.
    destruct (_ && _); [discriminate|]. destruct (_ <? _)%nat; discriminate.
  - intros Hs. destruct (accepted_buy_written symbol q s Hs) as (n & ts & Hg & _).
    apply getOwn_In, In_entries in Hg. unfold ledger in Hg. unfold plan.
    destruct (JS.entries (positions (portfolio (fst (snd (buy symbol q s))))))
      as [|x rest]; [destruct Hg|].
    destruct (_ && _); [left; reflexivity|right; reflexivity].
Qed.

(** X13: the history endpoint always answers with the most recent trades,
    newest first.  Without a limit, and with a limit that parses to NaN or
    to zero, it returns the whole history; a positive limit [n] selects the
    [n] newest trades; a negative limit [-n] leaves out the [n] oldest. *)
Theorem history_response (limit : Limit) (e : TradingEngine) :
  let h := history (portfolio e) in
  (limitGiven limit = false -> historyResponse limit e = rev h) /\
  (forall n, limit = LimitInt (Z.pos n) ->
     historyResponse limit e = rev (skipn (List.length h - Pos.to_nat n) h) /\
     List.length (historyResponse limit e) = Nat.min (Pos.to_nat n) (List.length h)) /\
  (forall n, limit = LimitInt (Z.neg n) ->
     historyResponse limit e = rev (skipn (Nat.min (Pos.to_nat n) (List.length h)) h)) /\
  (exists k, historyResponse limit e = rev (skipn k h)).
Proof.
  cbv zeta. unfold historyResponse.
  assert (P : forall n,
    slice0 (rev (history (portfolio e))) (LimitInt (Z.pos n))
    = rev (skipn (List.length (history (portfolio e)) - Pos.to_nat n)
                 (history (portfolio e)))).
  { intros n. unfold slice0. rewrite length_rev. cbn [Z.ltb Z.compare].
    rewrite <- firstn_rev.
    destruct (Z.min_spec (Z.pos n) (Z.of_nat (List.length (history (portfolio e)))))
      as [[Hlt ->]|[Hle ->]].
    - rewrite Z2Nat.inj_pos. reflexivity.
    - rewrite Nat2Z.id, <- (length_rev (history (portfolio e))), firstn_all.
      rewrite firstn_all2; [reflexivity|]. rewrite length_rev. lia. }
  assert (Q : forall n,
    slice0 (rev (history (portfolio e))) (LimitInt (Z.neg n))
    = rev (skipn (Nat.min (Pos.to_nat n) (List.length (history (portfolio e))))
                 (history (portfolio e)))).
  { intros n. unfold slice0. rewrite length_rev. cbn [Z.ltb Z.compare].
    rewrite firstn_rev. f_equal. f_equal. lia. }
  split; [intros ->; reflexivity|]. split; [|split].
  - intros n ->. cbn [limitGiven Z.eqb negb]. cbv iota. rewrite P. split; [reflexivity|].
    rewrite length_rev, length_skipn. lia.
  - intros n ->. cbn [limitGiven Z.eqb negb]. cbv iota. apply Q.
  - destruct limit as [| |[|n|n]|[|]]; cbn [limitGiven Z.eqb negb]; cbv iota.
    + exists 0%nat. reflexivity.
    + exists 0%nat. reflexivity.
    + exists 0%nat. reflexivity.
    + eexists. apply P.
    + eexists. apply Q.
    + exists (List.length (history (portfolio e))). unfold slice0.
      rewrite skipn_all. reflexivity.
    + exists 0%nat. unfold slice0. rewrite Nat2Z.id.
      rewrite firstn_all. reflexivity.
Qed.


End Readers.

Lemma plan_after_buy_witness :
  plan_action (plan (fst (snd (buy "AAPL" 6 (newTradingEngine, mock150)))))
  = "buy"%string \/
  plan_action (plan (fst (snd (buy "AAPL" 6 (newTradingEngine, mock150)))))
  = "hold"%string.
Proof.
  refine (proj2 (plan_after_buy "AAPL" 6 (newTradingEngine, mock150)) _).
  vm_compute. reflexivity.
Defined.


(** A limit of zero is no limit. *)
Example history_limit_zero :
  List.length (historyResponse (LimitInt 0)
     (fst (calls [CallBuy "AAPL" 5; CallBuy "GOOGL" 3] (newTradingEngine, mock150))))
  = 2%nat.
Proof. vm_compute. reflexivity. Qed.

(** ** What is asked of the price source *)

Lemma addPositions_asked (es : list (string * JS.value)) (t : float)
  (e : TradingEngine) (w : Spy) :
  spy_asked (snd (snd (addPositions es t (e, w))))
  = spy_asked w ++ map fst es /\
  spy_quote (snd (snd (addPositions es t (e, w)))) = spy_quote w.
Proof.
  revert t w. induction es as [|[symbol quantity] rest IH]; intros t w.
  - simpl. rewrite app_nil_r. split; reflexivity.
  - simpl. unfold bind, ask. cbn [fst snd getPrice Spy_Environment].
    destruct (IH (t + spy_quote w symbol * JS.toNumber quantity)
                 {| spy_quote := spy_quote w; spy_asked := spy_asked w ++ [symbol] |})
      as [E1 E2].
    rewrite E1, E2. cbn [spy_asked spy_quote]. rewrite <- app_assoc.
    split; reflexivity.
Qed.

(** X15: one valuation asks the price of every symbol held exactly once, in
    the order of [Object.entries], and of nothing else; with no position
    the price source is not consulted. *)
Theorem valuation_asks_each_symbol_once (e : TradingEngine) (w : Spy) :
  spy_asked (snd (snd (getPortfolioValue (e, w))))
  = spy_asked w ++ map fst (JS.entries (positions (portfolio e))) /\
  (positions (portfolio e) = [] ->
   snd (snd (getPortfolioValue (e, w))) = w /\
   fst (getPortfolioValue (e, w)) = cash (portfolio e)).
Proof.
  rewrite getPortfolioValue_eq. cbv zeta. cbn [fst snd]. split.
  - apply addPositions_asked.
  - intros ->. split; reflexivity.
Qed.

(** The test-suite's three positions. *)
Example three_symbols_asked :
  spy_asked (snd (snd (getPortfolioValue
    (mockEngine 100000 [("AAPL"%string, JS.JNum 100); ("GOOGL"%string, JS.JNum 50);
                        ("MSFT"%string, JS.JNum 25)] 100000,
     {| spy_quote := fun _ => 150; spy_asked := [] |}))))
  = ["AAPL"; "GOOGL"; "MSFT"]%string.
Proof. vm_compute. reflexivity. Qed.

(** Numeric symbols come first, in numeric order. *)
Example numeric_symbols_first :
  spy_asked (snd (snd (getPortfolioValue
    (mockEngine 100000 [("SONY"%string, JS.JNum 1); ("7203"%string, JS.JNum 1);
                        ("0700"%string, JS.JNum 1); ("5"%string, JS.JNum 1)] 100000,
     {| spy_quote := fun _ => 150; spy_asked := [] |}))))
  = ["5"; "7203"; "SONY"; "0700"]%string.
Proof. vm_compute. reflexivity. Qed.

(** ** The result of a buy *)

Section Results.

Context {W : Type} `{Environment W}.

(** X16: the result of a successful buy always carries its risk metrics
    (they are never [undefined]), the price is the one read at the start of
    the call and the quantity the one asked; a failed buy carries one of the
    three limit reasons or ["Insufficient funds"], never the reasons of an
    allowed check. *)
Theorem buy_result_shape (symbol : string) (q : float) (s : TradingEngine * W) :
  (exists m, fst (buy symbol q s) = Success (quoted symbol s) q (Some m) /\
             metrics (riskCheckOf symbol q s) = Some m) \/
  (exists why, fst (buy symbol q s) = Failure why /\
               why <> SellOrdersAllowed /\ why <> TradePassesAllRiskChecks).
Proof.
  rewrite buy_eq. cbv zeta. unfold riskCheckOf. rewrite checkTrade_buy_eq. cbv zeta.
  destruct (negb (dd_allowed _)).
  { right. cbn [fst allowed negb reason]. eexists. split; [reflexivity|].
    split; discriminate. }
  destruct (negb (ps_allowed _)).
  { right. cbn [fst allowed negb reason]. eexists. split; [reflexivity|].
    split; discriminate. }
  destruct (_ <? _).
  { right. cbn [fst allowed negb reason]. eexists. split; [reflexivity|].
    split; discriminate. }
  cbn [fst allowed negb metrics]. cbv iota. destruct (_ <=? _).
  - left. eexists. split; reflexivity.
  - right. eexists. split; [reflexivity|]. split; discriminate.
Qed.

End Results.
